(** * The dummy traffic plugin of Navit

    A shallow embedding of [navit/traffic/dummy/traffic_dummy.c]: the plugin
    instance with its request counter, the canned report generator
    [traffic_dummy_get_messages], the constructor [traffic_dummy_new] and the
    registration done by [plugin_init].

    Conventions of the embedding:
    - the C [int] counter is a [Z] kept in the 32-bit two's complement range,
      with the wrap-around of the increment written out ([Int.incr]);
    - a [time_t] value is a [Z] kept in the 64-bit two's complement range,
      with the wrap-around of [+] and [-] written out ([TimeT.add],
      [TimeT.sub]), and every evaluation of [time(NULL)] is a separate
      reading of the clock;
    - a pointer that may be [NULL] is an [option]; the pointer array returned
      by the generator is a list of such cells;
    - the objects allocated with [g_new0] live in a finite map from handles
      to structures. *)

From stdpp Require Import gmap strings list fin_maps.
From Stdlib Require Import Ascii.

(** ** Machine integers

    The counter of the plugin is a C [int], 32 bits wide on the platforms
    Navit is built for.  ISO C leaves the overflow of a signed increment
    undefined; the model takes what the two's complement machine does, the
    result reduced modulo 2^32 into the signed range. *)

Module Int.

Definition modulus : Z := 4294967296.
Definition min_signed : Z := -2147483648.
Definition max_signed : Z := 2147483647.

Definition in_range (z : Z) : Prop := (min_signed ≤ z ≤ max_signed)%Z.

(** Reduction of an integer to the value a 32-bit two's complement [int]
    holds for it. *)
Definition wrap (z : Z) : Z :=
  ((z - min_signed) `mod` modulus + min_signed)%Z.

(** [n++] on an [int] lvalue: the value stored by the increment. *)
Definition incr (n : Z) : Z := wrap (n + 1).

End Int.

(** [time_t] is the signed 64-bit integer of the platforms the plugin is
    built for; where it is narrower, the range below is narrower in the
    same way.  Additions and subtractions on it are reduced modulo 2^64
    into the signed range, as the machine does them. *)

Module TimeT.

Definition modulus : Z := 18446744073709551616.
Definition min_signed : Z := -9223372036854775808.
Definition max_signed : Z := 9223372036854775807.

Definition in_range (z : Z) : Prop := (min_signed ≤ z ≤ max_signed)%Z.

Definition wrap (z : Z) : Z :=
  ((z - min_signed) `mod` modulus + min_signed)%Z.

(** [t + k] and [t - k] on [time_t]. *)
Definition add (t k : Z) : Z := wrap (t + k).
Definition sub (t k : Z) : Z := wrap (t - k).

End TimeT.

(** ** Values of the traffic framework

    The framework's header [traffic.h] and the item and plugin headers are
    not part of the sources of this plugin.  The types below keep what the
    plugin passes to the framework's constructors, argument by argument. *)

(** [time_t]: its values are the integers of [TimeT.in_range]. *)
Definition time_t : Type := Z.

(** A floating constant as the source spells it: [FloatLit m d] is the
    decimal number [m / 10^d].  The plugin does no arithmetic on
    coordinates. *)
Record float_lit : Type := FloatLit { lit_digits : Z; lit_decimals : nat }.

(** Modelled from the spec: the enumerations of [traffic.h] and of the item
    types, which are missing from the sources ("a directionality flag, a
    fuzziness classifier, a ramp classifier, a road-type classifier", "an
    event classification pair (class, sub-type)").  Each lists the
    enumerators the plugin uses, next to siblings of the framework they are
    told apart from. *)
Inductive location_dir : Type :=
  | location_dir_one
  | location_dir_both.

Inductive location_fuzziness : Type :=
  | location_fuzziness_none
  | location_fuzziness_low_res.

Inductive location_ramps : Type :=
  | location_ramps_none
  | location_ramps_all.

Inductive item_type : Type :=
  | type_highway_land
  | type_highway_city.

Inductive event_class : Type :=
  | event_class_invalid
  | event_class_congestion.

Inductive event_type : Type :=
  | event_invalid
  | event_congestion_queue
  | event_congestion_slow_traffic.

(** Modelled from the spec: the traffic point built by [traffic_point_new],
    whose definition is missing from the sources: "geographic coordinate
    (longitude, latitude), display name, an external junction/exit
    identifier, and an external location-table identifier". *)
Record traffic_point : Type := {
  point_lon : float_lit;
  point_lat : float_lit;
  junction_name : string;
  junction_ref : string;
  tmc_id : string
}.

Definition traffic_point_new (lon lat : float_lit)
    (junction_name junction_ref tmc_id : string) : traffic_point :=
  {| point_lon := lon; point_lat := lat; junction_name := junction_name;
     junction_ref := junction_ref; tmc_id := tmc_id |}.

(** Modelled from the spec: the traffic location built by
    [traffic_location_new], whose definition is missing from the sources:
    "a from-point and to-point, a directionality flag, a fuzziness
    classifier, a ramp classifier, a road-type classifier, a road name, and a
    numeric/table reference".  The record has one field for each of the
    thirteen arguments of the constructor, in their order; the arguments the
    plugin leaves [NULL] are options.  The road of a location, "A9" or
    "A96", is its eleventh argument, [loc_road_ref]. *)
Record traffic_location : Type := {
  loc_at : option traffic_point;
  loc_from : traffic_point;
  loc_to : traffic_point;
  loc_destination : string;
  loc_direction : option string;
  loc_directionality : location_dir;
  loc_fuzziness : location_fuzziness;
  loc_ramps : location_ramps;
  loc_road_type : item_type;
  loc_road_name : option string;
  loc_road_ref : string;
  loc_tmc_table : string;
  loc_tmc_direction : Z
}.

Definition traffic_location_new (loc_at : option traffic_point)
    (from to : traffic_point) (destination : string)
    (direction : option string) (directionality : location_dir)
    (fuzziness : location_fuzziness) (ramps : location_ramps)
    (road_type : item_type) (road_name : option string)
    (road_ref tmc_table : string) (tmc_direction : Z) : traffic_location :=
  {| loc_at := loc_at; loc_from := from; loc_to := to;
     loc_destination := destination; loc_direction := direction;
     loc_directionality := directionality; loc_fuzziness := fuzziness;
     loc_ramps := ramps; loc_road_type := road_type;
     loc_road_name := road_name; loc_road_ref := road_ref;
     loc_tmc_table := tmc_table; loc_tmc_direction := tmc_direction |}.

(** Modelled from the spec: the traffic message built by
    [traffic_message_new_single_event] and
    [traffic_message_new_cancellation], whose definitions are missing from
    the sources: "a stable external identifier, a first-received timestamp,
    a last-updated timestamp, an expiration timestamp, a validity/replace
    flag, a referenced location, and either (a) an event classification pair
    (class, sub-type) for a normal report, or (b) a cancellation marker
    referencing the same identifier/location instead of an event".  The flag
    is an argument of the event constructor only, so it is kept with the
    event. *)
Inductive message_payload : Type :=
  | single_event (flag : Z) (class : event_class) (type : event_type)
  | cancellation.

Record traffic_message : Type := {
  msg_id : string;
  receive_time : time_t;
  update_time : time_t;
  expiration_time : time_t;
  msg_location : traffic_location;
  msg_payload : message_payload
}.

Definition traffic_message_new_single_event (id : string)
    (receive_time update_time expiration_time : time_t) (flag : Z)
    (location : traffic_location) (class : event_class) (type : event_type)
    : traffic_message :=
  {| msg_id := id; receive_time := receive_time; update_time := update_time;
     expiration_time := expiration_time; msg_location := location;
     msg_payload := single_event flag class type |}.

Definition traffic_message_new_cancellation (id : string)
    (receive_time update_time expiration_time : time_t)
    (location : traffic_location) : traffic_message :=
  {| msg_id := id; receive_time := receive_time; update_time := update_time;
     expiration_time := expiration_time; msg_location := location;
     msg_payload := cancellation |}.

(** [g_new0 (T *, n)]: an array of [n] pointers, all [NULL]. *)
Definition g_new0 {A : Type} (n : nat) : list (option A) := replicate n None.

(** ** The plugin instance *)

(** The navit instance the plugin belongs to, an opaque object of the
    host. *)
Definition navit : Type := positive.

Record traffic_priv : Type := {
  nav : option navit;
  reports_requested : Z
}.

(** What [traffic_dummy_get_messages] returns: [None] is the [NULL] pointer,
    [Some a] a pointer to the array [a] of message pointers. *)
Abbreviation message_array := (list (option traffic_message)).
Abbreviation report := (option message_array).

(** The clock as one invocation sees it: a function from the evaluations of
    [time(NULL)], counted from 0 in the order of the program text, to the
    values they return.  C leaves the order in which the arguments of a call
    are evaluated open; the numbering only names the readings. *)
Definition clock : Type := nat → time_t.

(** [time(NULL)], at its [i]-th evaluation. *)
Definition time (clk : clock) (i : nat) : time_t := clk i.

(** The report generator.  The structure behind the pointer [this_] is
    passed in and handed back with the result; the counter is incremented
    first, and the [switch] is on its new value. *)
Definition traffic_dummy_get_messages (clk : clock) (this_ : traffic_priv)
    : traffic_priv * report :=
  let this_ := {| nav := nav this_;
                  reports_requested := Int.incr (reports_requested this_) |} in
  match reports_requested this_ with
  | 1%Z =>
      let messages : message_array := g_new0 3 in
      let from := traffic_point_new (FloatLit 116208 4) (FloatLit 483164 4)
                    "Neufahrn" "68" "12732-4" in
      let to := traffic_point_new (FloatLit 115893 4) (FloatLit 48429 3)
                  "Allershausen" "67" "12732" in
      let location := traffic_location_new None from to "Nürnberg" None
                        location_dir_one location_fuzziness_low_res
                        location_ramps_none type_highway_land None
                        "A9" "58:1" (-1) in
      let messages := <[0 := Some (traffic_message_new_single_event
                        "dummy:A9-68-67" (time clk 0) (time clk 1)
                        (TimeT.add (time clk 2) 20) 0
                        location event_class_congestion
                        event_congestion_queue)]> messages in
      let from := traffic_point_new (FloatLit 114481 4) (FloatLit 481266 4)
                    "Gräfelfing" "36b" "12961-2" in
      let to := traffic_point_new (FloatLit 115028 4) (FloatLit 481258 4)
                  "München-Laim" "38" "12961" in
      let location := traffic_location_new None from to "München" None
                        location_dir_one location_fuzziness_low_res
                        location_ramps_none type_highway_land None
                        "A96" "58:1" (-1) in
      let messages := <[1 := Some (traffic_message_new_single_event
                        "dummy:A96-36b-38" (time clk 3) (time clk 4)
                        (TimeT.add (time clk 5) 20) 0
                        location event_class_congestion
                        event_congestion_slow_traffic)]> messages in
      (this_, Some messages)
  | 11%Z =>
      let messages : message_array := g_new0 3 in
      let from := traffic_point_new (FloatLit 116208 4) (FloatLit 483164 4)
                    "Neufahrn" "68" "12732-4" in
      let to := traffic_point_new (FloatLit 115893 4) (FloatLit 48429 3)
                  "Allershausen" "67" "12732" in
      let location := traffic_location_new None from to "Nürnberg" None
                        location_dir_one location_fuzziness_low_res
                        location_ramps_none type_highway_land None
                        "A9" "58:1" (-1) in
      let messages := <[0 := Some (traffic_message_new_single_event
                        "dummy:A9-68-67" (TimeT.sub (time clk 0) 10) (time clk 1)
                        (TimeT.add (time clk 2) 10) 0
                        location event_class_congestion
                        event_congestion_queue)]> messages in
      let from := traffic_point_new (FloatLit 114481 4) (FloatLit 481266 4)
                    "Gräfelfing" "36b" "12961-2" in
      let to := traffic_point_new (FloatLit 115028 4) (FloatLit 481258 4)
                  "München-Laim" "38" "12961" in
      let location := traffic_location_new None from to "München" None
                        location_dir_one location_fuzziness_low_res
                        location_ramps_none type_highway_land None
                        "A96" "58:1" (-1) in
      let messages := <[1 := Some (traffic_message_new_cancellation
                        "dummy:A96-36b-38" (TimeT.sub (time clk 3) 10) (time clk 4)
                        (TimeT.add (time clk 5) 10) location)]> messages in
      (this_, Some messages)
  | _ => (this_, None)
  end.

(** ** The methods table and the constructor *)

(** The methods a traffic plugin hands to the framework: the table of this
    plugin has the report generator as its one entry. *)
Record traffic_methods : Type := {
  get_messages : clock → traffic_priv → traffic_priv * report
}.

Definition traffic_dummy_meth : traffic_methods :=
  {| get_messages := traffic_dummy_get_messages |}.

(** Levels of the host's debug output. *)
Inductive dbg_level : Type :=
  | lvl_error
  | lvl_warning
  | lvl_info
  | lvl_debug.

(** The memory of the process as far as the plugin touches it: the plugin
    instances allocated so far, by handle, and the calls made to the host's
    [dbg], oldest first. *)
Record process : Type := {
  instances : gmap positive traffic_priv;
  dbg_calls : list (dbg_level * string)
}.

(** [dbg] is a macro of the host's [debug.h], which is not part of the
    sources: the model keeps the call, level and text. *)
Definition dbg (lvl : dbg_level) (text : string) (σ : process) : process :=
  {| instances := instances σ; dbg_calls := dbg_calls σ ++ [(lvl, text)] |}.

(** The text ["enter\n"]. *)
Definition enter_text : string := "enter" +:+ String "010"%char EmptyString.

(** [g_new0 (struct traffic_priv, 1)]: the structure with every member
    zero. *)
Definition traffic_priv_zero : traffic_priv :=
  {| nav := None; reports_requested := 0 |}.

(** Allocation of a zeroed instance at a handle that is not in use.  glib
    ends the program when memory runs out, so the call has no failing
    return. *)
Definition g_new0_traffic_priv (σ : process) : positive * process :=
  let ret := fresh (dom (instances σ)) in
  (ret, {| instances := <[ret := traffic_priv_zero]> (instances σ);
           dbg_calls := dbg_calls σ |}).

(** Attributes and callback lists are objects of the host that the
    constructor receives and ignores. *)
Definition attr : Type := positive.
Definition callback_list : Type := positive.

(** The constructor.  [meth] is the content of the table the caller passes
    by pointer; the table written by the constructor is returned next to
    the handle of the instance. *)
Definition traffic_dummy_new (nav : navit) (meth : traffic_methods)
    (attrs : list attr) (cbl : callback_list) (σ : process)
    : positive * traffic_methods * process :=
  let σ := dbg lvl_error enter_text σ in
  let '(ret, σ) := g_new0_traffic_priv σ in
  let meth := traffic_dummy_meth in
  (ret, meth, σ).

(** ** Registration *)

(** Modelled from the spec: the plugin categories of the host's [plugin.h],
    which is missing from the sources; the plugin registers with "the host's
    traffic-plugin category". *)
Inductive plugin_category : Type :=
  | plugin_category_map
  | plugin_category_vehicle
  | plugin_category_traffic.

#[global] Instance plugin_category_eq_dec : EqDecision plugin_category.
Proof. solve_decision. Defined.

#[global] Instance plugin_category_countable : Countable plugin_category.
Proof.
  refine (inj_countable'
    (λ c, match c with
          | plugin_category_map => 0
          | plugin_category_vehicle => 1
          | plugin_category_traffic => 2
          end)
    (λ n, match n with
          | 0 => plugin_category_map
          | 1 => plugin_category_vehicle
          | _ => plugin_category_traffic
          end) _).
  by intros [].
Defined.

(** The type of a traffic plugin's constructor. *)
Definition traffic_new : Type :=
  navit → traffic_methods → list attr → callback_list → process →
  positive * traffic_methods * process.

(** What the registry holds for a name is a function pointer without a
    type of its own: the constructor of a traffic plugin, or some other
    function of the host, known by its address. *)
Inductive plugin_new : Type :=
  | new_traffic (new : traffic_new)
  | new_other (address : positive).

(** Modelled from the spec: the registry behind
    [plugin_register_category_traffic], which is missing from the sources:
    "a category-keyed registry mapping plugin names to constructor
    functions". *)
Abbreviation registry := (gmap (plugin_category * string) plugin_new).

Definition plugin_register_category_traffic (name : string)
    (new : traffic_new) (reg : registry) : registry :=
  <[(plugin_category_traffic, name) := new_traffic new]> reg.

(** [plugin_init] works on the memory of the process, for [dbg], and on the
    registry of the host. *)
Definition plugin_init (w : process * registry) : process * registry :=
  let '(σ, reg) := w in
  let σ := dbg lvl_error enter_text σ in
  let reg := plugin_register_category_traffic "dummy" traffic_dummy_new reg in
  (σ, reg).

(** ** Calls in sequence *)

(** The reports of successive calls on one instance; the call in position
    [i] of [clocks] reads the clock [clocks !! i]. *)
Fixpoint poll (this_ : traffic_priv) (clocks : list clock)
    : traffic_priv * list report :=
  match clocks with
  | [] => (this_, [])
  | clk :: clocks =>
      let '(this_, r) := traffic_dummy_get_messages clk this_ in
      let '(this_, rs) := poll this_ clocks in
      (this_, r :: rs)
  end.

(** A call through the methods table on the instance behind the handle
    [h].  There is no result for a handle that is not allocated. *)
Definition call_get_messages (meth : traffic_methods) (clk : clock)
    (h : positive) (σ : process) : option (report * process) :=
  this_ ← instances σ !! h;
  let '(this_, r) := get_messages meth clk this_ in
  Some (r, {| instances := <[h := this_]> (instances σ);
              dbg_calls := dbg_calls σ |}).

(** A schedule of calls, each on some instance with its clock, run on one
    process; the result lists the reports with the handles they were
    requested for. *)
Fixpoint run (meth : traffic_methods) (sched : list (positive * clock))
    (σ : process) : option (list (positive * report) * process) :=
  match sched with
  | [] => Some ([], σ)
  | (h, clk) :: sched =>
      '(r, σ) ← call_get_messages meth clk h σ;
      '(rs, σ) ← run meth sched σ;
      Some ((h, r) :: rs, σ)
  end.

(** The clocks of the calls a schedule makes on [h], and the reports a
    trace holds for [h], in order. *)
Definition clocks_of (h : positive) (sched : list (positive * clock))
    : list clock :=
  (filter (λ c, c.1 = h) sched).*2.

Definition reports_of (h : positive) (trace : list (positive * report))
    : list report :=
  (filter (λ c, c.1 = h) trace).*2.

(** ** Reading a returned array *)

(** The messages a caller finds scanning the array from its start up to the
    first [NULL]; there is no result when the array ends before one is
    found. *)
Fixpoint scan (a : message_array) : option (list traffic_message) :=
  match a with
  | [] => None
  | None :: _ => Some []
  | Some m :: a => cons m <$> scan a
  end.

(** A clock that shows [now] at each of its readings. *)
Definition steady (now : time_t) : clock := λ _, now.

(** ** The segments of the specification *)

(** The end points of the two segments, with the literals of the
    specification. *)
Definition spec_neufahrn : traffic_point :=
  {| point_lon := FloatLit 116208 4; point_lat := FloatLit 483164 4;
     junction_name := "Neufahrn"; junction_ref := "68";
     tmc_id := "12732-4" |}.

Definition spec_allershausen : traffic_point :=
  {| point_lon := FloatLit 115893 4; point_lat := FloatLit 48429 3;
     junction_name := "Allershausen"; junction_ref := "67";
     tmc_id := "12732" |}.

Definition spec_graefelfing : traffic_point :=
  {| point_lon := FloatLit 114481 4; point_lat := FloatLit 481266 4;
     junction_name := "Gräfelfing"; junction_ref := "36b";
     tmc_id := "12961-2" |}.

Definition spec_muenchen_laim : traffic_point :=
  {| point_lon := FloatLit 115028 4; point_lat := FloatLit 481258 4;
     junction_name := "München-Laim"; junction_ref := "38";
     tmc_id := "12961" |}.

(** What the specification says of the location of a message, by the
    road the message is about. *)
Definition spec_segment (m : traffic_message) : Prop :=
  (loc_road_ref (msg_location m) = "A9" ∧
   msg_id m = "dummy:A9-68-67" ∧
   loc_from (msg_location m) = spec_neufahrn ∧
   loc_to (msg_location m) = spec_allershausen) ∨
  (loc_road_ref (msg_location m) = "A96" ∧
   msg_id m = "dummy:A96-36b-38" ∧
   loc_from (msg_location m) = spec_graefelfing ∧
   loc_to (msg_location m) = spec_muenchen_laim).

(** ** Counting what was reported *)

(** The arrays among a sequence of reports, the [NULL] reports left out. *)
Definition batches (rs : list report) : list message_array := omap id rs.

(** The messages of a sequence of reports: those of each array, up to its
    end. *)
Definition messages (rs : list report) : list traffic_message :=
  batches rs ≫= omap id.

(** * Properties *)

(** ** The counter arithmetic *)

Section int_arithmetic.
Local Open Scope Z_scope.

Lemma wrap_eq (x y : Z) : x = y → Int.wrap x = Int.wrap y.
Proof. by intros ->. Qed.

Lemma wrap_in_range (z : Z) : Int.in_range (Int.wrap z).
Proof.
  unfold Int.in_range, Int.wrap, Int.min_signed, Int.max_signed, Int.modulus.
  pose proof (Z.mod_pos_bound (z - -2147483648) 4294967296). lia.
Qed.

Lemma wrap_small (z : Z) : Int.in_range z → Int.wrap z = z.
Proof.
  unfold Int.in_range, Int.wrap, Int.min_signed, Int.max_signed, Int.modulus.
  intros Hz. rewrite Z.mod_small; lia.
Qed.

Lemma wrap_period (z k : Z) : Int.wrap (z + k * Int.modulus) = Int.wrap z.
Proof.
  unfold Int.wrap. f_equal.
  replace (z + k * Int.modulus - Int.min_signed)
    with (z - Int.min_signed + k * Int.modulus) by lia.
  apply Z_mod_plus_full.
Qed.

Lemma wrap_add_l (x y : Z) : Int.wrap (Int.wrap x + y) = Int.wrap (x + y).
Proof.
  unfold Int.wrap at 2.
  rewrite (Z.mod_eq (x - Int.min_signed) Int.modulus)
    by (unfold Int.modulus; lia).
  set (q := (x - Int.min_signed) `div` Int.modulus).
  replace (x - Int.min_signed - Int.modulus * q + Int.min_signed + y)
    with (x + y + (- q) * Int.modulus) by lia.
  apply wrap_period.
Qed.

Lemma incr_wrap (x : Z) : Int.incr (Int.wrap x) = Int.wrap (x + 1).
Proof. apply wrap_add_l. Qed.

Lemma incr_below_max (n : Z) :
  Int.min_signed ≤ n < Int.max_signed → Int.incr n = n + 1.
Proof.
  intros Hn. apply wrap_small. unfold Int.in_range in *. lia.
Qed.

Lemma incr_at_max : Int.incr Int.max_signed = Int.min_signed.
Proof. reflexivity. Qed.

Lemma wrap_mod (z : Z) : Int.wrap z `mod` Int.modulus = z `mod` Int.modulus.
Proof.
  unfold Int.wrap.
  rewrite (Z.mod_eq (z - Int.min_signed) Int.modulus)
    by (unfold Int.modulus; lia).
  set (q := (z - Int.min_signed) `div` Int.modulus).
  replace (z - Int.min_signed - Int.modulus * q + Int.min_signed)
    with (z + (- q) * Int.modulus) by lia.
  apply Z_mod_plus_full.
Qed.

Lemma time_wrap_small (z : Z) : TimeT.in_range z → TimeT.wrap z = z.
Proof.
  unfold TimeT.in_range, TimeT.wrap, TimeT.min_signed, TimeT.max_signed,
    TimeT.modulus.
  intros Hz. rewrite Z.mod_small; lia.
Qed.

Lemma time_add_small (t k : Z) :
  TimeT.in_range (t + k) → TimeT.add t k = t + k.
Proof. apply time_wrap_small. Qed.

Lemma time_sub_small (t k : Z) :
  TimeT.in_range (t - k) → TimeT.sub t k = t - k.
Proof. apply time_wrap_small. Qed.

End int_arithmetic.

(** ** One call *)

Section one_call.
Implicit Types (clk : clock) (that : traffic_priv).

(** The structure after a call: the counter incremented, [nav] as it was. *)
Lemma get_messages_state clk (this_ : traffic_priv) :
  (traffic_dummy_get_messages clk this_).1 =
    {| nav := nav this_;
       reports_requested := Int.incr (reports_requested this_) |}.
Proof.
  unfold traffic_dummy_get_messages. cbv zeta. cbn [reports_requested].
  repeat case_match; reflexivity.
Qed.

(** The report is decided by the incremented counter and the clock. *)
Lemma get_messages_report_ext clk (this_ : traffic_priv) that :
  Int.incr (reports_requested this_) = Int.incr (reports_requested that) →
  (traffic_dummy_get_messages clk this_).2 =
  (traffic_dummy_get_messages clk that).2.
Proof.
  intros Heq. unfold traffic_dummy_get_messages. cbv zeta.
  cbn [reports_requested]. rewrite Heq.
  repeat case_match; reflexivity.
Qed.

Lemma get_messages_default clk (this_ : traffic_priv) :
  Int.incr (reports_requested this_) ≠ 1%Z →
  Int.incr (reports_requested this_) ≠ 11%Z →
  (traffic_dummy_get_messages clk this_).2 = None.
Proof.
  intros H1 H11. unfold traffic_dummy_get_messages. cbv zeta.
  cbn [reports_requested].
  repeat case_match; try reflexivity; congruence.
Qed.

Lemma get_messages_case_1 clk (this_ : traffic_priv) :
  Int.incr (reports_requested this_) = 1%Z →
  (traffic_dummy_get_messages clk this_).2 =
  (traffic_dummy_get_messages clk traffic_priv_zero).2.
Proof. intros H. apply get_messages_report_ext. by rewrite H. Qed.

Lemma get_messages_case_11 clk (this_ : traffic_priv) :
  Int.incr (reports_requested this_) = 11%Z →
  (traffic_dummy_get_messages clk this_).2 =
  (traffic_dummy_get_messages clk
     {| nav := None; reports_requested := 10 |}).2.
Proof. intros H. apply get_messages_report_ext. by rewrite H. Qed.

(** A report is present exactly for the counter values 1 and 11. *)
Lemma get_messages_present clk (this_ : traffic_priv) a :
  (traffic_dummy_get_messages clk this_).2 = Some a →
  Int.incr (reports_requested this_) = 1%Z ∨
  Int.incr (reports_requested this_) = 11%Z.
Proof.
  intros Ha.
  destruct (decide (Int.incr (reports_requested this_) = 1%Z)) as [|H1];
    [by left|].
  destruct (decide (Int.incr (reports_requested this_) = 11%Z)) as [|H11];
    [by right|].
  by rewrite get_messages_default in Ha.
Qed.

End one_call.

(** ** Calls in sequence on one instance *)

Section polling.
Implicit Types (clk : clock) (clocks : list clock).

Lemma poll_cons (this_ : traffic_priv) clk clocks :
  poll this_ (clk :: clocks) =
    ((poll (traffic_dummy_get_messages clk this_).1 clocks).1,
     (traffic_dummy_get_messages clk this_).2
       :: (poll (traffic_dummy_get_messages clk this_).1 clocks).2).
Proof.
  cbn [poll]. destruct (traffic_dummy_get_messages clk this_) as [that r].
  cbn [fst snd]. by destruct (poll that clocks).
Qed.

Lemma poll_length (this_ : traffic_priv) clocks :
  length (poll this_ clocks).2 = length clocks.
Proof.
  revert this_. induction clocks as [|clk clocks IH]; intros this_.
  - reflexivity.
  - rewrite poll_cons. cbn [snd length]. by rewrite IH.
Qed.

Lemma poll_nav (this_ : traffic_priv) clocks :
  nav (poll this_ clocks).1 = nav this_.
Proof.
  revert this_. induction clocks as [|clk clocks IH]; intros this_.
  - reflexivity.
  - rewrite poll_cons. cbn [fst]. rewrite IH.
    by rewrite get_messages_state.
Qed.

(** The counter after the calls, as a structure may hold any integer in
    the model: for a counter in the range of [int] see
    [poll_counter_in_range]. *)
Lemma poll_counter (this_ : traffic_priv) clocks :
  Int.wrap (reports_requested (poll this_ clocks).1) =
  Int.wrap (reports_requested this_ + Z.of_nat (length clocks)).
Proof.
  revert this_. induction clocks as [|clk clocks IH]; intros this_.
  - cbn [poll fst length]. apply wrap_eq. lia.
  - rewrite poll_cons. cbn [fst]. rewrite IH.
    rewrite get_messages_state. cbn [reports_requested length].
    unfold Int.incr. rewrite wrap_add_l. apply wrap_eq. lia.
Qed.

Lemma poll_keeps_range (this_ : traffic_priv) clocks :
  Int.in_range (reports_requested this_) →
  Int.in_range (reports_requested (poll this_ clocks).1).
Proof.
  revert this_. induction clocks as [|clk clocks IH]; intros this_ Hr.
  - done.
  - rewrite poll_cons. cbn [fst]. apply IH.
    rewrite get_messages_state. apply wrap_in_range.
Qed.

Lemma poll_counter_in_range (this_ : traffic_priv) clocks :
  Int.in_range (reports_requested this_) →
  reports_requested (poll this_ clocks).1 =
  Int.wrap (reports_requested this_ + Z.of_nat (length clocks)).
Proof.
  intros Hr. rewrite <- poll_counter.
  symmetry. by apply wrap_small, poll_keeps_range.
Qed.

(** The report of the call in position [k] is the report of one call on
    the structure whose counter was advanced [k] times. *)
Lemma poll_lookup (this_ : traffic_priv) clocks (k : nat) clk :
  clocks !! k = Some clk →
  (poll this_ clocks).2 !! k =
  Some (traffic_dummy_get_messages clk
          {| nav := nav this_;
             reports_requested :=
               Int.wrap (reports_requested this_ + Z.of_nat k) |}).2.
Proof.
  revert this_ k.
  induction clocks as [|clk' clocks IH]; intros this_ k Hk; [done|].
  rewrite poll_cons. cbn [snd]. destruct k as [|k].
  - injection Hk as ->. cbn [lookup list_lookup]. f_equal.
    apply get_messages_report_ext. cbn [reports_requested].
    rewrite incr_wrap. apply wrap_eq. lia.
  - cbn [lookup list_lookup] in Hk |- *. rewrite (IH _ _ Hk). f_equal.
    apply get_messages_report_ext.
    rewrite get_messages_state. cbn [reports_requested].
    rewrite !incr_wrap. unfold Int.incr.
    rewrite <- Z.add_assoc, wrap_add_l. apply wrap_eq. lia.
Qed.

Lemma poll_lookup_fresh clocks (k : nat) clk :
  clocks !! k = Some clk →
  (poll traffic_priv_zero clocks).2 !! k =
  Some (traffic_dummy_get_messages clk
          {| nav := None; reports_requested := Int.wrap (Z.of_nat k) |}).2.
Proof.
  intros Hk. rewrite (poll_lookup _ _ _ _ Hk). cbn [nav reports_requested
    traffic_priv_zero]. reflexivity.
Qed.

End polling.

(** ** The first call on a new instance *)

(** A call through the table and handle the constructor returned is a call
    of the generator on the zeroed structure. *)
Lemma call_after_new (nav : navit) (meth : traffic_methods)
    (attrs : list attr) (cbl : callback_list) (σ : process) (clk : clock) :
  ∃ σ',
    (let '(this_, meth, σ) := traffic_dummy_new nav meth attrs cbl σ in
     call_get_messages meth clk this_ σ) =
    Some ((traffic_dummy_get_messages clk traffic_priv_zero).2, σ').
Proof.
  unfold traffic_dummy_new, g_new0_traffic_priv, call_get_messages.
  cbn [instances dbg]. rewrite lookup_insert_eq. cbn [mbind option_bind].
  cbn [get_messages traffic_dummy_meth].
  destruct (traffic_dummy_get_messages clk traffic_priv_zero) as [that r].
  by eexists.
Qed.

(** C1. On an instance that was just created, the first call of the report
    generator, made while the clock shows [now], returns exactly two
    messages: a queue event of the congestion class on the A9 with the
    identifier "dummy:A9-68-67", and a slow-traffic event of the congestion
    class on the A96 with the identifier "dummy:A96-36b-38".  For both the
    first-received and the last-updated timestamps are [now], and the
    expiration timestamp is [now + 20], for every [now] from which
    [time_t] can hold [now + 20]. *)
Theorem first_call_reports_two_events (nav : navit) (meth : traffic_methods)
    (attrs : list attr) (cbl : callback_list) (σ : process)
    (clk : clock) (now : time_t) :
  (∀ i, i < 6 → time clk i = now) →
  TimeT.in_range now →
  TimeT.in_range (now + 20) →
  ∃ a9 a96 σ',
    (let '(this_, meth, σ) := traffic_dummy_new nav meth attrs cbl σ in
     call_get_messages meth clk this_ σ) =
      Some (Some [Some a9; Some a96; None], σ') ∧
    msg_id a9 = "dummy:A9-68-67" ∧
    loc_road_ref (msg_location a9) = "A9" ∧
    msg_payload a9 =
      single_event 0 event_class_congestion event_congestion_queue ∧
    msg_id a96 = "dummy:A96-36b-38" ∧
    loc_road_ref (msg_location a96) = "A96" ∧
    msg_payload a96 =
      single_event 0 event_class_congestion event_congestion_slow_traffic ∧
    receive_time a9 = now ∧ update_time a9 = now ∧
    expiration_time a9 = (now + 20)%Z ∧
    receive_time a96 = now ∧ update_time a96 = now ∧
    expiration_time a96 = (now + 20)%Z.
Proof.
  intros Hnow _ Hexp.
  destruct (call_after_new nav meth attrs cbl σ clk) as [σ' ->].
  eexists _, _, σ'. split; [reflexivity|].
  cbn [msg_id msg_location msg_payload receive_time update_time
       expiration_time traffic_message_new_single_event loc_road_ref
       traffic_location_new].
  rewrite !Hnow by lia. rewrite (time_add_small _ _ Hexp). done.
Qed.

Lemma first_call_reports_two_events_witness :
  ∃ a9 a96 σ',
    (let '(this_, meth, σ) :=
       traffic_dummy_new 1%positive traffic_dummy_meth [] 1%positive
         {| instances := ∅; dbg_calls := [] |} in
     call_get_messages meth (steady 1500000000%Z) this_ σ) =
      Some (Some [Some a9; Some a96; None], σ') ∧
    msg_id a9 = "dummy:A9-68-67" ∧
    loc_road_ref (msg_location a9) = "A9" ∧
    msg_payload a9 =
      single_event 0 event_class_congestion event_congestion_queue ∧
    msg_id a96 = "dummy:A96-36b-38" ∧
    loc_road_ref (msg_location a96) = "A96" ∧
    msg_payload a96 =
      single_event 0 event_class_congestion event_congestion_slow_traffic ∧
    receive_time a9 = 1500000000%Z ∧ update_time a9 = 1500000000%Z ∧
    expiration_time a9 = 1500000020%Z ∧
    receive_time a96 = 1500000000%Z ∧ update_time a96 = 1500000000%Z ∧
    expiration_time a96 = 1500000020%Z.
Proof.
  apply (first_call_reports_two_events 1%positive traffic_dummy_meth []
           1%positive {| instances := ∅; dbg_calls := [] |}
           (steady 1500000000%Z) 1500000000%Z).
  - intros i _. reflexivity.
  - unfold TimeT.in_range, TimeT.min_signed, TimeT.max_signed. lia.
  - unfold TimeT.in_range, TimeT.min_signed, TimeT.max_signed. lia.
Defined.

(** ** The eleventh call *)

(** C2. The eleventh call on an instance, made while the clock shows [now],
    returns exactly two messages.  The first is an update of the A9 event:
    it has the identifier "dummy:A9-68-67" and the location of the first
    message of the first call, was first received at [now - 10], ten units
    before its last update at [now], and expires at [now + 10].  The second
    is a cancellation of the A96 event: it has the identifier
    "dummy:A96-36b-38" and the location of the second message of the first
    call, the same three timestamps, and no event classification.  This is
    so for every [now] from which [time_t] can hold [now - 10] and
    [now + 10]. *)
Theorem eleventh_call_updates_and_cancels (clocks : list clock)
    (clk : clock) (now : time_t) :
  clocks !! 10 = Some clk →
  (∀ i, i < 6 → time clk i = now) →
  TimeT.in_range (now - 10) →
  TimeT.in_range (now + 10) →
  ∃ first second update cancel,
    (poll traffic_priv_zero clocks).2 !! 0 =
      Some (Some [Some first; Some second; None]) ∧
    (poll traffic_priv_zero clocks).2 !! 10 =
      Some (Some [Some update; Some cancel; None]) ∧
    msg_id update = "dummy:A9-68-67" ∧
    msg_id update = msg_id first ∧
    msg_location update = msg_location first ∧
    msg_payload update =
      single_event 0 event_class_congestion event_congestion_queue ∧
    receive_time update = (now - 10)%Z ∧
    update_time update = now ∧
    (receive_time update < update_time update)%Z ∧
    expiration_time update = (now + 10)%Z ∧
    msg_id cancel = "dummy:A96-36b-38" ∧
    msg_id cancel = msg_id second ∧
    msg_location cancel = msg_location second ∧
    msg_payload cancel = cancellation ∧
    receive_time cancel = (now - 10)%Z ∧
    update_time cancel = now ∧
    expiration_time cancel = (now + 10)%Z.
Proof.
  intros Hclk Hnow Hrecv Hexp.
  destruct (lookup_lt_is_Some_2 clocks 0) as [clk1 Hclk1].
  { apply lookup_lt_Some in Hclk. lia. }
  eexists _, _, _, _.
  rewrite (poll_lookup_fresh _ _ _ Hclk1), (poll_lookup_fresh _ _ _ Hclk).
  split; [reflexivity|]. split; [reflexivity|].
  cbn [msg_id msg_location msg_payload receive_time update_time
       expiration_time traffic_message_new_single_event
       traffic_message_new_cancellation].
  rewrite !Hnow by lia.
  rewrite (time_add_small _ _ Hexp), (time_sub_small _ _ Hrecv).
  repeat split; lia.
Qed.

Lemma eleventh_call_updates_and_cancels_witness :
  ∃ first second update cancel,
    (poll traffic_priv_zero (replicate 11 (steady 1500000000%Z))).2 !! 0 =
      Some (Some [Some first; Some second; None]) ∧
    (poll traffic_priv_zero (replicate 11 (steady 1500000000%Z))).2 !! 10 =
      Some (Some [Some update; Some cancel; None]) ∧
    msg_id update = "dummy:A9-68-67" ∧
    msg_id update = msg_id first ∧
    msg_location update = msg_location first ∧
    msg_payload update =
      single_event 0 event_class_congestion event_congestion_queue ∧
    receive_time update = 1499999990%Z ∧
    update_time update = 1500000000%Z ∧
    (receive_time update < update_time update)%Z ∧
    expiration_time update = 1500000010%Z ∧
    msg_id cancel = "dummy:A96-36b-38" ∧
    msg_id cancel = msg_id second ∧
    msg_location cancel = msg_location second ∧
    msg_payload cancel = cancellation ∧
    receive_time cancel = 1499999990%Z ∧
    update_time cancel = 1500000000%Z ∧
    expiration_time cancel = 1500000010%Z.
Proof.
  apply (eleventh_call_updates_and_cancels
           (replicate 11 (steady 1500000000%Z)) (steady 1500000000%Z)
           1500000000%Z).
  - reflexivity.
  - intros i _. reflexivity.
  - unfold TimeT.in_range, TimeT.min_signed, TimeT.max_signed. lia.
  - unfold TimeT.in_range, TimeT.min_signed, TimeT.max_signed. lia.
Defined.

(** ** Timestamps at the ends of the range of [time_t]

    Outside the range asked for above the additions of the generator wrap
    around: at the last second [time_t] can hold, the first call returns
    messages that expire in the distant past, and at the first one the
    eleventh call returns messages first received in the distant
    future. *)

Example expiration_wraps_at_max_time :
  (default [] (traffic_dummy_get_messages (steady TimeT.max_signed)
                 traffic_priv_zero).2 !! 0) ≫= fmap expiration_time =
  Some (-9223372036854775789)%Z.
Proof. reflexivity. Qed.

Example reception_wraps_at_min_time :
  (default [] (traffic_dummy_get_messages (steady TimeT.min_signed)
                 {| nav := None; reports_requested := 10 |}).2 !! 0)
    ≫= fmap receive_time =
  Some 9223372036854775798%Z.
Proof. reflexivity. Qed.

(** ** The calls that report nothing *)

Lemma wrap_eq_iff (z c : Z) :
  (0 ≤ c ≤ Int.max_signed)%Z →
  Int.wrap z = c ↔ (z `mod` Int.modulus = c)%Z.
Proof.
  unfold Int.wrap, Int.min_signed, Int.max_signed, Int.modulus.
  intros Hc. Z.div_mod_to_equations. lia.
Qed.

Lemma wrap_modulus : Int.wrap Int.modulus = 0%Z.
Proof. reflexivity. Qed.

(** The counter value on which call number [k + 1] on a new instance
    branches. *)
Lemma incr_wrap_of_nat (k : nat) :
  Int.incr (Int.wrap (Z.of_nat k)) = Int.wrap (Z.of_nat (S k)).
Proof. rewrite incr_wrap. apply wrap_eq. lia. Qed.

(** The first call ever reports something. *)
Lemma first_report_present (clk : clock) :
  (traffic_dummy_get_messages clk traffic_priv_zero).2 ≠ None.
Proof. discriminate. Qed.

(** Up to the overflow of the counter.  A call whose incremented counter
    is neither 1 nor 11 returns [NULL], not an array without messages, and
    leaves the incremented counter behind.  On a new instance the call
    number [k + 1] returns [NULL] whenever [k + 1] modulo 2^32 is neither
    1 nor 11: so do the calls 2 to 10 and the calls 12 to 2^32. *)
Theorem absent_unless_counter_is_1_or_11 :
  (∀ (clk : clock) (this_ : traffic_priv),
     Int.incr (reports_requested this_) ≠ 1%Z →
     Int.incr (reports_requested this_) ≠ 11%Z →
     traffic_dummy_get_messages clk this_ =
       ({| nav := nav this_;
           reports_requested := Int.incr (reports_requested this_) |},
        None)) ∧
  (∀ (clocks : list clock) (k : nat),
     k < length clocks →
     (Z.of_nat (S k) `mod` Int.modulus ≠ 1)%Z →
     (Z.of_nat (S k) `mod` Int.modulus ≠ 11)%Z →
     (poll traffic_priv_zero clocks).2 !! k = Some None) ∧
  (∀ (clocks : list clock) (k : nat),
     k < length clocks →
     (2 ≤ Z.of_nat (S k) ≤ 10 ∨ 12 ≤ Z.of_nat (S k) ≤ Int.modulus)%Z →
     (poll traffic_priv_zero clocks).2 !! k = Some None).
Proof.
  assert (Hcalls : ∀ (clocks : list clock) (k : nat),
     k < length clocks →
     (Z.of_nat (S k) `mod` Int.modulus ≠ 1)%Z →
     (Z.of_nat (S k) `mod` Int.modulus ≠ 11)%Z →
     (poll traffic_priv_zero clocks).2 !! k = Some None).
  { intros clocks k Hk H1 H11.
    destruct (lookup_lt_is_Some_2 clocks k Hk) as [clk Hclk].
    rewrite (poll_lookup_fresh _ _ _ Hclk). f_equal.
    apply get_messages_default; cbn [reports_requested];
      rewrite incr_wrap_of_nat, wrap_eq_iff;
      unfold Int.max_signed; done. }
  split; [|split].
  - intros clk this_ H1 H11.
    rewrite (surjective_pairing (traffic_dummy_get_messages clk this_)).
    by rewrite get_messages_state, get_messages_default.
  - exact Hcalls.
  - intros clocks k Hk Hrange. apply Hcalls; [done|..].
    + destruct Hrange as [Hr|Hr].
      * rewrite Z.mod_small; unfold Int.modulus; lia.
      * destruct (decide (Z.of_nat (S k) = Int.modulus)) as [->|Hne].
        { by rewrite Z.mod_same. }
        rewrite Z.mod_small; unfold Int.modulus in *; lia.
    + destruct Hrange as [Hr|Hr].
      * rewrite Z.mod_small; unfold Int.modulus; lia.
      * destruct (decide (Z.of_nat (S k) = Int.modulus)) as [->|Hne].
        { by rewrite Z.mod_same. }
        rewrite Z.mod_small; unfold Int.modulus in *; lia.
Qed.

Lemma absent_unless_counter_is_1_or_11_witness :
  traffic_dummy_get_messages (steady 7%Z)
    {| nav := None; reports_requested := 4 |} =
    ({| nav := None; reports_requested := 5 |}, None) ∧
  (poll traffic_priv_zero (replicate 12 (steady 7%Z))).2 !! 11 = Some None ∧
  (poll traffic_priv_zero (replicate 12 (steady 7%Z))).2 !! 1 = Some None.
Proof.
  split; [|split].
  - apply (proj1 absent_unless_counter_is_1_or_11 (steady 7%Z)
             {| nav := None; reports_requested := 4 |});
      vm_compute; discriminate.
  - apply (proj1 (proj2 absent_unless_counter_is_1_or_11)
             (replicate 12 (steady 7%Z)) 11);
      [vm_compute; lia | vm_compute; discriminate..].
  - apply (proj2 (proj2 absent_unless_counter_is_1_or_11)
             (replicate 12 (steady 7%Z)) 1);
      [vm_compute; lia | vm_compute; left; split; discriminate].
Defined.

(** The calls [Int.modulus + 1] and [Int.modulus + 11] on a new instance
    find the counter at the values 1 and 11 again. *)
Lemma poll_lookup_after_wrap (clocks : list clock) (k : nat) (clk : clock) :
  clocks !! (Z.to_nat Int.modulus + k) = Some clk →
  (poll traffic_priv_zero clocks).2 !! (Z.to_nat Int.modulus + k) =
  Some (traffic_dummy_get_messages clk
          {| nav := None; reports_requested := Int.wrap (Z.of_nat k) |}).2.
Proof.
  intros Hclk. rewrite (poll_lookup_fresh _ _ _ Hclk).
  rewrite (get_messages_report_ext clk
             {| nav := None;
                reports_requested :=
                  Int.wrap (Z.of_nat (Z.to_nat Int.modulus + k)) |}
             {| nav := None; reports_requested := Int.wrap (Z.of_nat k) |});
    [reflexivity|].
  cbn [reports_requested]. rewrite !incr_wrap.
  rewrite <- (wrap_period (Z.of_nat k + 1) 1). apply wrap_eq.
  rewrite Nat2Z.inj_add, Z2Nat.id; unfold Int.modulus; lia.
Qed.

(** C3.  Every call from the twelfth onward is to return [NULL], for ever,
    as the comment of the generator has it ("All other calls to this
    method will return NULL").  The code does not keep this once the
    counter has overflowed: call number 4294967297 on a new instance is a
    call from the twelfth onward, finds the counter at 1 again, and
    returns the two messages of the first call, not [NULL]. *)
Lemma call_4294967297_is_not_absent :
  (12 ≤ 4294967297)%Z ∧
  (poll traffic_priv_zero
     (replicate (Z.to_nat 4294967297) (steady 0%Z))).2
    !! Z.to_nat 4294967296 =
  Some (traffic_dummy_get_messages (steady 0%Z) traffic_priv_zero).2 ∧
  (poll traffic_priv_zero
     (replicate (Z.to_nat 4294967297) (steady 0%Z))).2
    !! Z.to_nat 4294967296 ≠ Some None.
Proof.
  assert (Hclk : replicate (Z.to_nat 4294967297) (steady 0%Z)
                   !! (Z.to_nat Int.modulus + 0) = Some (steady 0%Z)).
  { apply lookup_replicate_2. unfold Int.modulus. lia. }
  pose proof (poll_lookup_after_wrap _ _ _ Hclk) as Hcall.
  rewrite Nat.add_0_r in Hcall. change Int.modulus with 4294967296%Z in Hcall.
  split; [lia|]. split.
  - exact Hcall.
  - rewrite Hcall. discriminate.
Qed.

(** ** The counter and the number of calls *)

Lemma eleventh_report_present (clk : clock) :
  (traffic_dummy_get_messages clk
     {| nav := None; reports_requested := 10 |}).2 ≠ None.
Proof. discriminate. Qed.

(** Whether a call reports something, by its incremented counter. *)
Lemma get_messages_absent_iff (clk : clock) (this_ : traffic_priv) :
  (traffic_dummy_get_messages clk this_).2 = None ↔
  Int.incr (reports_requested this_) ≠ 1%Z ∧
  Int.incr (reports_requested this_) ≠ 11%Z.
Proof.
  split.
  - intros Habs. split; intros Hn.
    + rewrite (get_messages_case_1 _ _ Hn) in Habs.
      by apply first_report_present in Habs.
    + rewrite (get_messages_case_11 _ _ Hn) in Habs.
      by apply eleventh_report_present in Habs.
  - intros [H1 H11]. by apply get_messages_default.
Qed.

(** The instance a constructor call leaves behind its handle. *)
Lemma new_instance_is_zero (nav : navit) (meth : traffic_methods)
    (attrs : list attr) (cbl : callback_list) (σ : process) :
  (let '(this_, _, σ) := traffic_dummy_new nav meth attrs cbl σ in
   instances σ !! this_) = Some traffic_priv_zero.
Proof.
  unfold traffic_dummy_new, g_new0_traffic_priv. cbn [instances dbg].
  apply lookup_insert_eq.
Qed.

(** Up to the overflow of the counter.  The counter of a new instance is
    0, and a call increments it by one, in the arithmetic of a 32-bit
    [int], before it branches.  After the calls of [clocks] the counter
    holds their number reduced to the range of [int], which is the number
    itself up to 2^31 - 1; up to there call number [k + 1] branches on
    [k + 1]: it reports something exactly when [k + 1] is 1 or 11. *)
Theorem counter_counts_calls :
  (∀ (nav : navit) (meth : traffic_methods) (attrs : list attr)
     (cbl : callback_list) (σ : process),
     (let '(this_, _, σ) := traffic_dummy_new nav meth attrs cbl σ in
      reports_requested <$> instances σ !! this_) = Some 0%Z) ∧
  (∀ (clk : clock) (this_ : traffic_priv),
     reports_requested (traffic_dummy_get_messages clk this_).1 =
       Int.incr (reports_requested this_) ∧
     ((traffic_dummy_get_messages clk this_).2 = None ↔
      Int.incr (reports_requested this_) ≠ 1%Z ∧
      Int.incr (reports_requested this_) ≠ 11%Z)) ∧
  (∀ (clk : clock) (this_ : traffic_priv),
     (Int.min_signed ≤ reports_requested this_ < Int.max_signed)%Z →
     reports_requested (traffic_dummy_get_messages clk this_).1 =
       (reports_requested this_ + 1)%Z) ∧
  (∀ clocks : list clock,
     reports_requested (poll traffic_priv_zero clocks).1 =
       Int.wrap (Z.of_nat (length clocks))) ∧
  (∀ clocks : list clock,
     (Z.of_nat (length clocks) ≤ Int.max_signed)%Z →
     reports_requested (poll traffic_priv_zero clocks).1 =
       Z.of_nat (length clocks)) ∧
  (∀ (clocks : list clock) (k : nat),
     k < length clocks →
     (Z.of_nat (S k) ≤ Int.max_signed)%Z →
     (poll traffic_priv_zero clocks).2 !! k = Some None ↔
     S k ≠ 1 ∧ S k ≠ 11).
Proof.
  assert (Hcount : ∀ clocks : list clock,
     reports_requested (poll traffic_priv_zero clocks).1 =
       Int.wrap (Z.of_nat (length clocks))).
  { intros clocks. rewrite poll_counter_in_range; [done|].
    unfold Int.in_range, Int.min_signed, Int.max_signed. cbn. lia. }
  repeat apply conj.
  - intros nav meth attrs cbl σ.
    pose proof (new_instance_is_zero nav meth attrs cbl σ) as Hnew.
    destruct (traffic_dummy_new nav meth attrs cbl σ) as [[this_ ?] σ'].
    by rewrite Hnew.
  - intros clk this_. split.
    + by rewrite get_messages_state.
    + apply get_messages_absent_iff.
  - intros clk this_ Hr. rewrite get_messages_state. cbn [reports_requested].
    by apply incr_below_max.
  - exact Hcount.
  - intros clocks Hlen. rewrite Hcount. apply wrap_small.
    unfold Int.in_range, Int.min_signed, Int.max_signed in *. lia.
  - intros clocks k Hk Hmax.
    destruct (lookup_lt_is_Some_2 clocks k Hk) as [clk Hclk].
    rewrite (poll_lookup_fresh _ _ _ Hclk).
    assert (Hn : Int.incr (Int.wrap (Z.of_nat k)) = Z.of_nat (S k)).
    { rewrite incr_wrap_of_nat. apply wrap_small.
      unfold Int.in_range, Int.min_signed, Int.max_signed in *. lia. }
    split.
    + intros [= Habs]. apply get_messages_absent_iff in Habs.
      cbn [reports_requested] in Habs. rewrite Hn in Habs. lia.
    + intros [H1 H11]. apply (f_equal Some).
      apply get_messages_absent_iff. cbn [reports_requested].
      rewrite Hn. lia.
Qed.

Lemma counter_counts_calls_witness :
  reports_requested
    (traffic_dummy_get_messages (steady 7%Z)
       {| nav := None; reports_requested := 10 |}).1 = 11%Z ∧
  reports_requested
    (poll traffic_priv_zero (replicate 11 (steady 7%Z))).1 = 11%Z ∧
  ((poll traffic_priv_zero (replicate 11 (steady 7%Z))).2 !! 9 = Some None ↔
   10 ≠ 1 ∧ 10 ≠ 11).
Proof.
  destruct counter_counts_calls as (_ & _ & Hstep & _ & Hcount & Hbranch).
  split; [|split].
  - apply (Hstep (steady 7%Z) {| nav := None; reports_requested := 10 |}).
    unfold Int.min_signed, Int.max_signed. cbn [reports_requested]. lia.
  - apply (Hcount (replicate 11 (steady 7%Z))). vm_compute. discriminate.
  - apply (Hbranch (replicate 11 (steady 7%Z)) 9).
    + vm_compute. lia.
    + vm_compute. discriminate.
Defined.

(** C4.  After [k] calls the counter is to hold [k], "how many reports
    have been requested" in the words of the structure's comment.  The
    code does not keep this once the increment overflows: after
    2147483648 calls on a new instance the counter holds -2147483648, not
    the number of calls. *)
Lemma counter_after_2147483648_calls :
  length (replicate (Z.to_nat 2147483648) (steady 0%Z)) =
    Z.to_nat 2147483648 ∧
  reports_requested
    (poll traffic_priv_zero
       (replicate (Z.to_nat 2147483648) (steady 0%Z))).1 =
    (-2147483648)%Z ∧
  reports_requested
    (poll traffic_priv_zero
       (replicate (Z.to_nat 2147483648) (steady 0%Z))).1 ≠
    Z.of_nat (Z.to_nat 2147483648).
Proof.
  assert (Hlen : length (replicate (Z.to_nat 2147483648) (steady 0%Z)) =
                 Z.to_nat 2147483648) by apply length_replicate.
  assert (Hrr : reports_requested
    (poll traffic_priv_zero
       (replicate (Z.to_nat 2147483648) (steady 0%Z))).1 =
    (-2147483648)%Z).
  { rewrite poll_counter_in_range.
    - rewrite Hlen, Z2Nat.id by lia. reflexivity.
    - unfold Int.in_range, Int.min_signed, Int.max_signed. cbn. lia. }
  split; [exact Hlen|]. split; [exact Hrr|].
  rewrite Hrr, Z2Nat.id; lia.
Qed.

(** ** The returned array *)

(** A report that is present is the array of call 1 or of call 11. *)
Lemma get_messages_some (clk : clock) (this_ : traffic_priv)
    (a : message_array) :
  (traffic_dummy_get_messages clk this_).2 = Some a →
  Some a = (traffic_dummy_get_messages clk traffic_priv_zero).2 ∨
  Some a = (traffic_dummy_get_messages clk
              {| nav := None; reports_requested := 10 |}).2.
Proof.
  intros Ha. destruct (get_messages_present _ _ _ Ha) as [Hn|Hn].
  - left. by rewrite <- Ha, (get_messages_case_1 _ _ Hn).
  - right. by rewrite <- Ha, (get_messages_case_11 _ _ Hn).
Qed.

(** C5. An array returned by the report generator holds exactly two
    messages followed by a [NULL] entry, and nothing after it: a caller
    who scans it from the start finds the two messages and then the
    terminator. *)
Theorem batch_is_sentinel_terminated (clk : clock) (this_ : traffic_priv)
    (a : message_array) :
  (traffic_dummy_get_messages clk this_).2 = Some a →
  ∃ m1 m2,
    a = [Some m1; Some m2; None] ∧
    scan a = Some [m1; m2] ∧
    a !! 2 = Some None ∧
    length a = 3.
Proof.
  intros Ha. destruct (get_messages_some _ _ _ Ha) as [[= ->]|[= ->]];
    by eexists _, _.
Qed.

Lemma batch_is_sentinel_terminated_witness :
  ∃ m1 m2,
    [Some m1; Some m2; None] =
      default [] (traffic_dummy_get_messages (steady 7%Z)
                    traffic_priv_zero).2 ∧
    scan [Some m1; Some m2; None] = Some [m1; m2].
Proof.
  destruct (batch_is_sentinel_terminated (steady 7%Z) traffic_priv_zero
              (default [] (traffic_dummy_get_messages (steady 7%Z)
                             traffic_priv_zero).2) eq_refl)
    as (m1 & m2 & Ha & Hscan & _).
  exists m1, m2. rewrite <- Ha. split; [reflexivity | exact Hscan].
Defined.

(** ** The locations *)

Lemma poll_elem_of (this_ : traffic_priv) (clocks : list clock)
    (r : report) :
  r ∈ (poll this_ clocks).2 →
  ∃ clk that, r = (traffic_dummy_get_messages clk that).2.
Proof.
  intros [k Hk]%list_elem_of_lookup.
  destruct (lookup_lt_is_Some_2 clocks k) as [clk Hclk].
  { rewrite <- (poll_length this_). by eapply lookup_lt_Some. }
  rewrite (poll_lookup _ _ _ _ Hclk) in Hk. injection Hk as <-.
  by eexists _, _.
Qed.

(** C6. Every message the report generator ever returns, in any sequence
    of calls, is about the A9 or about the A96, and its location goes from
    and to the points that are fixed for that road: from Neufahrn to
    Allershausen on the A9, from Gräfelfing to München-Laim on the A96. *)
Theorem every_location_matches_its_segment (this_ : traffic_priv)
    (clocks : list clock) (a : message_array) (m : traffic_message) :
  Some a ∈ (poll this_ clocks).2 →
  Some m ∈ a →
  spec_segment m.
Proof.
  intros (clk & that & Ha)%poll_elem_of Hm. symmetry in Ha.
  unfold spec_segment.
  destruct (get_messages_some _ _ _ Ha) as [[= ->]|[= ->]];
    apply elem_of_cons in Hm as [[= ->]|Hm]; [by left| |by left|];
    apply elem_of_cons in Hm as [[= ->]|Hm]; [by right| |by right|];
    apply elem_of_cons in Hm as [?|Hm]; try done;
    by apply elem_of_nil in Hm.
Qed.

Lemma every_location_matches_its_segment_witness :
  spec_segment
    (traffic_message_new_cancellation "dummy:A96-36b-38" (-3)%Z 7%Z 17%Z
       (traffic_location_new None spec_graefelfing spec_muenchen_laim
          "München" None location_dir_one location_fuzziness_low_res
          location_ramps_none type_highway_land None "A96" "58:1" (-1))).
Proof.
  apply (every_location_matches_its_segment traffic_priv_zero
           (replicate 11 (steady 7%Z))
           (default [] (traffic_dummy_get_messages (steady 7%Z)
                          {| nav := None; reports_requested := 10 |}).2)).
  - apply list_elem_of_lookup. exists 10. reflexivity.
  - apply list_elem_of_lookup. exists 1. reflexivity.
Defined.

(** ** The constructor *)

(** C7. The constructor returns for every navit instance, table, attribute
    list and callback list: it has no failing result.  It allocates one
    structure at a handle that was not in use, with every member zero, so
    that the counter [reports_requested] is 0; it writes the table whose
    entry is the report generator over whatever the caller's table held;
    and it returns the handle.  Apart from the new structure and one debug
    line the memory is as before. *)
Theorem new_allocates_zeroed_instance (nav : navit) (meth : traffic_methods)
    (attrs : list attr) (cbl : callback_list) (σ : process) :
  ∃ this_ meth' σ',
    traffic_dummy_new nav meth attrs cbl σ = (this_, meth', σ') ∧
    meth' = traffic_dummy_meth ∧
    get_messages meth' = traffic_dummy_get_messages ∧
    instances σ !! this_ = None ∧
    instances σ' !! this_ = Some {| nav := None; reports_requested := 0 |} ∧
    delete this_ (instances σ') = instances σ ∧
    dbg_calls σ' = dbg_calls σ ++ [(lvl_error, enter_text)].
Proof.
  eexists _, _, _. split; [reflexivity|].
  cbn [instances dbg_calls dbg].
  assert (Hfresh : instances σ !! fresh (dom (instances σ)) = None).
  { apply not_elem_of_dom, is_fresh. }
  repeat split.
  - exact Hfresh.
  - apply lookup_insert_eq.
  - rewrite delete_insert_eq. by apply delete_id.
Qed.

(** ** Registration *)

(** C8. One run of [plugin_init] enters the constructor
    [traffic_dummy_new] in the registry under the category of traffic
    plugins and the name "dummy".  Every other entry of the registry stays
    as it was, none is added and none is removed; in the memory of the
    process only a debug line is added.  In a registry that was empty, the
    entry is the only one afterwards. *)
Theorem plugin_init_registers_dummy (σ : process) (reg : registry) :
  ∃ σ' reg',
    plugin_init (σ, reg) = (σ', reg') ∧
    reg' !! (plugin_category_traffic, "dummy") =
      Some (new_traffic traffic_dummy_new) ∧
    delete (plugin_category_traffic, "dummy") reg' =
      delete (plugin_category_traffic, "dummy") reg ∧
    dom reg' = {[ (plugin_category_traffic, "dummy") ]} ∪ dom reg ∧
    (plugin_init (σ, ∅)).2 =
      {[ (plugin_category_traffic, "dummy") :=
           new_traffic traffic_dummy_new ]} ∧
    instances σ' = instances σ ∧
    dbg_calls σ' = dbg_calls σ ++ [(lvl_error, enter_text)].
Proof.
  eexists _, _. split; [reflexivity|].
  unfold plugin_register_category_traffic. cbn [instances dbg_calls dbg snd].
  repeat split.
  - apply lookup_insert_eq.
  - apply delete_insert_eq.
  - apply dom_insert_L.
Qed.

(** ** Several instances in one process *)

Section schedules.
Implicit Types (sched : list (positive * clock)) (σ : process).

Lemma clocks_of_cons (h h' : positive) (clk : clock) sched :
  clocks_of h ((h', clk) :: sched) =
    if decide (h' = h) then clk :: clocks_of h sched else clocks_of h sched.
Proof.
  unfold clocks_of. rewrite filter_cons. cbn [fst].
  by destruct (decide (h' = h)).
Qed.

Lemma reports_of_cons (h h' : positive) (r : report)
    (trace : list (positive * report)) :
  reports_of h ((h', r) :: trace) =
    if decide (h' = h) then r :: reports_of h trace else reports_of h trace.
Proof.
  unfold reports_of. rewrite filter_cons. cbn [fst].
  by destruct (decide (h' = h)).
Qed.

(** What a schedule does to one instance is what its own calls do to it:
    the reports for [h] and the structure behind [h] afterwards are those
    of polling the structure alone with the clocks of its calls. *)
Lemma run_local sched σ (h : positive) (p : traffic_priv) :
  instances σ !! h = Some p →
  Forall (λ c, c.1 ∈ dom (instances σ)) sched →
  ∃ trace σ',
    run traffic_dummy_meth sched σ = Some (trace, σ') ∧
    reports_of h trace = (poll p (clocks_of h sched)).2 ∧
    instances σ' !! h = Some (poll p (clocks_of h sched)).1 ∧
    dom (instances σ') = dom (instances σ).
Proof.
  revert σ p. induction sched as [|[h' clk] sched IH]; intros σ p Hp Hdom.
  { by eexists _, _. }
  apply Forall_cons in Hdom as [Hh' Hdom]. cbn [fst] in Hh'.
  apply elem_of_dom in Hh' as [p' Hp'].
  cbn [run]. unfold call_get_messages. rewrite Hp'. cbn [mbind option_bind].
  cbn [get_messages traffic_dummy_meth].
  rewrite clocks_of_cons.
  pose proof (poll_cons p clk (clocks_of h sched)) as Hpoll.
  destruct (traffic_dummy_get_messages clk p') as [p'' r] eqn:Hcall.
  set (σ1 := {| instances := <[h':=p'']> (instances σ);
                dbg_calls := dbg_calls σ |}).
  assert (Hdom1 : dom (instances σ1) = dom (instances σ)).
  { cbn [σ1 instances]. by apply dom_insert_lookup_L. }
  assert (Hsched : Forall (λ c, c.1 ∈ dom (instances σ1)) sched).
  { by rewrite Hdom1. }
  destruct (decide (h' = h)) as [->|Hne].
  - assert (p' = p) as -> by congruence.
    rewrite Hcall in Hpoll. cbn [fst snd] in Hpoll.
    destruct (IH σ1 p'') as (trace & σ' & Hrun & Hrep & Hst & Hd);
      [apply lookup_insert_eq | done |].
    eexists _, _. cbn [mbind option_bind]. rewrite Hrun.
    cbn [mbind option_bind].
    split; [reflexivity|]. rewrite reports_of_cons, decide_True by done.
    rewrite Hpoll. cbn [fst snd]. rewrite Hrep, Hst, Hd. done.
  - destruct (IH σ1 p) as (trace & σ' & Hrun & Hrep & Hst & Hd);
      [cbn [σ1 instances]; by rewrite lookup_insert_ne | done |].
    eexists _, _. cbn [mbind option_bind]. rewrite Hrun.
    cbn [mbind option_bind].
    split; [reflexivity|]. rewrite reports_of_cons, decide_False by done.
    rewrite Hrep, Hst, Hd. done.
Qed.

End schedules.

Lemma traffic_dummy_new_inv (nav : navit) (meth meth' : traffic_methods)
    (attrs : list attr) (cbl : callback_list) (σ σ' : process)
    (this_ : positive) :
  traffic_dummy_new nav meth attrs cbl σ = (this_, meth', σ') →
  meth' = traffic_dummy_meth ∧
  instances σ !! this_ = None ∧
  instances σ' = <[this_ := traffic_priv_zero]> (instances σ).
Proof.
  unfold traffic_dummy_new, g_new0_traffic_priv. cbn [instances dbg].
  intros [= <- <- <-]. cbn [instances]. repeat split.
  apply not_elem_of_dom, is_fresh.
Qed.

(** C9. Two instances created one after the other in a process are
    different objects, and both have the methods table of the plugin.
    Whatever schedule of calls runs on the instances of the process, if it
    polls the two with the same sequence of clocks, the reports for the one
    are the reports for the other, call by call: they are the reports of
    polling one new structure with those clocks, so that the calls made on
    any other instance leave no trace in them. *)
Theorem two_instances_report_alike (nav1 nav2 : navit)
    (meth1 meth2 meth_a meth_b : traffic_methods)
    (attrs1 attrs2 : list attr) (cbl1 cbl2 : callback_list)
    (σ σ1 σ2 : process) (a b : positive)
    (sched : list (positive * clock)) (clocks : list clock) :
  traffic_dummy_new nav1 meth1 attrs1 cbl1 σ = (a, meth_a, σ1) →
  traffic_dummy_new nav2 meth2 attrs2 cbl2 σ1 = (b, meth_b, σ2) →
  Forall (λ c, c.1 ∈ dom (instances σ2)) sched →
  clocks_of a sched = clocks →
  clocks_of b sched = clocks →
  a ≠ b ∧ meth_a = meth_b ∧
  ∃ trace σ',
    run meth_a sched σ2 = Some (trace, σ') ∧
    reports_of a trace = (poll traffic_priv_zero clocks).2 ∧
    reports_of b trace = (poll traffic_priv_zero clocks).2 ∧
    reports_of a trace = reports_of b trace.
Proof.
  intros (-> & Ha & Hσ1)%traffic_dummy_new_inv
         (-> & Hb & Hσ2)%traffic_dummy_new_inv Hdom Hca Hcb.
  assert (Hab : a ≠ b).
  { intros ->. by rewrite Hσ1, lookup_insert_eq in Hb. }
  assert (Hla : instances σ2 !! a = Some traffic_priv_zero).
  { by rewrite Hσ2, lookup_insert_ne, Hσ1, lookup_insert_eq. }
  assert (Hlb : instances σ2 !! b = Some traffic_priv_zero).
  { by rewrite Hσ2, lookup_insert_eq. }
  destruct (run_local sched σ2 a _ Hla Hdom)
    as (trace & σ' & Hrun & Hra & _).
  destruct (run_local sched σ2 b _ Hlb Hdom)
    as (trace' & σ'' & Hrun' & Hrb & _).
  rewrite Hrun in Hrun'. injection Hrun' as <- <-.
  rewrite Hca in Hra. rewrite Hcb in Hrb.
  split; [done|]. split; [done|]. exists trace, σ'.
  by rewrite Hra, Hrb.
Qed.

Lemma two_instances_report_alike_witness :
  ∃ trace σ',
    run traffic_dummy_meth
      [(1%positive, steady 5%Z); (2%positive, steady 5%Z);
       (2%positive, steady 6%Z); (1%positive, steady 6%Z)]
      {| instances :=
           <[2%positive := traffic_priv_zero]>
             (<[1%positive := traffic_priv_zero]> ∅);
         dbg_calls := [(lvl_error, enter_text); (lvl_error, enter_text)] |} =
      Some (trace, σ') ∧
    reports_of 1%positive trace = reports_of 2%positive trace.
Proof.
  destruct (two_instances_report_alike 1%positive 1%positive
              traffic_dummy_meth traffic_dummy_meth
              traffic_dummy_meth traffic_dummy_meth [] [] 1%positive
              1%positive
              {| instances := ∅; dbg_calls := [] |}
              {| instances := <[1%positive := traffic_priv_zero]> ∅;
                 dbg_calls := [(lvl_error, enter_text)] |}
              {| instances :=
                   <[2%positive := traffic_priv_zero]>
                     (<[1%positive := traffic_priv_zero]> ∅);
                 dbg_calls :=
                   [(lvl_error, enter_text); (lvl_error, enter_text)] |}
              1%positive 2%positive
              [(1%positive, steady 5%Z); (2%positive, steady 5%Z);
               (2%positive, steady 6%Z); (1%positive, steady 6%Z)]
              [steady 5%Z; steady 6%Z])
    as (_ & _ & trace & σ' & Hrun & _ & _ & Heq).
  - reflexivity.
  - reflexivity.
  - repeat constructor; cbn [fst instances]; apply elem_of_dom; eexists;
      reflexivity.
  - reflexivity.
  - reflexivity.
  - exists trace, σ'. split; [exact Hrun | exact Heq].
Defined.

(** ** The counter at the end of its range *)

Lemma lookup_clocks (f : nat → clock) (n i : nat) :
  i < n → (f <$> seq 0 n) !! i = Some (f i).
Proof.
  intros Hi. rewrite list_lookup_fmap, lookup_seq_lt by done. reflexivity.
Qed.

(** C10. The counter is a 32-bit integer and its increment wraps around:
    the value a call leaves is in the range of [int] and is the value
    found plus one modulo 2^32, and the increment of 2147483647 is
    -2147483648.  So after 2^32 calls on a new instance the counter is 0
    again, whatever the clocks [f] of those calls, and the calls number
    2^32 + 1 and 2^32 + 11 report what the calls number 1 and 11 report,
    the two messages, not [NULL]. *)
Theorem counter_wraps_and_reports_recur (clk : clock) (this_ : traffic_priv)
    (f : nat → clock) :
  Int.in_range (reports_requested (traffic_dummy_get_messages clk this_).1) ∧
  (reports_requested (traffic_dummy_get_messages clk this_).1
     `mod` Int.modulus =
   (reports_requested this_ + 1) `mod` Int.modulus)%Z ∧
  reports_requested
    (traffic_dummy_get_messages clk
       {| nav := nav this_; reports_requested := Int.max_signed |}).1 =
    Int.min_signed ∧
  reports_requested
    (poll traffic_priv_zero (f <$> seq 0 (Z.to_nat Int.modulus))).1 = 0%Z ∧
  (poll traffic_priv_zero (f <$> seq 0 (Z.to_nat Int.modulus + 11))).2
    !! (Z.to_nat Int.modulus + 0) =
    Some (traffic_dummy_get_messages (f (Z.to_nat Int.modulus + 0))
            traffic_priv_zero).2 ∧
  (poll traffic_priv_zero (f <$> seq 0 (Z.to_nat Int.modulus + 11))).2
    !! (Z.to_nat Int.modulus + 10) =
    Some (traffic_dummy_get_messages (f (Z.to_nat Int.modulus + 10))
            {| nav := None; reports_requested := 10 |}).2 ∧
  (poll traffic_priv_zero (f <$> seq 0 (Z.to_nat Int.modulus + 11))).2
    !! (Z.to_nat Int.modulus + 0) ≠ Some None ∧
  (poll traffic_priv_zero (f <$> seq 0 (Z.to_nat Int.modulus + 11))).2
    !! (Z.to_nat Int.modulus + 10) ≠ Some None.
Proof.
  assert (H1 :
    (poll traffic_priv_zero (f <$> seq 0 (Z.to_nat Int.modulus + 11))).2
      !! (Z.to_nat Int.modulus + 0) =
    Some (traffic_dummy_get_messages (f (Z.to_nat Int.modulus + 0))
            traffic_priv_zero).2).
  { rewrite (poll_lookup_after_wrap _ 0 (f (Z.to_nat Int.modulus + 0))).
    - reflexivity.
    - apply lookup_clocks. lia. }
  assert (H11 :
    (poll traffic_priv_zero (f <$> seq 0 (Z.to_nat Int.modulus + 11))).2
      !! (Z.to_nat Int.modulus + 10) =
    Some (traffic_dummy_get_messages (f (Z.to_nat Int.modulus + 10))
            {| nav := None; reports_requested := 10 |}).2).
  { rewrite (poll_lookup_after_wrap _ 10 (f (Z.to_nat Int.modulus + 10))).
    - reflexivity.
    - apply lookup_clocks. lia. }
  rewrite H1, H11, !get_messages_state. cbn [reports_requested].
  split; [apply wrap_in_range|]. split; [apply wrap_mod|].
  split; [apply incr_at_max|]. split; [|by repeat split].
  rewrite poll_counter_in_range.
  - rewrite length_fmap, length_seq, Z2Nat.id by (unfold Int.modulus; lia).
    apply wrap_modulus.
  - unfold Int.in_range, Int.min_signed, Int.max_signed. cbn. lia.
Qed.

(** * Further properties of the plugin *)

(** ** Timestamps under a clock that moves during the call *)

(** A message of an array that is returned is its first or its second
    entry, and the array is the one of call 1 or the one of call 11. *)
Lemma batch_elem_of (clk : clock) (this_ : traffic_priv)
    (a : message_array) (m : traffic_message) :
  (traffic_dummy_get_messages clk this_).2 = Some a →
  Some m ∈ a →
  (Some a = (traffic_dummy_get_messages clk traffic_priv_zero).2 ∨
   Some a = (traffic_dummy_get_messages clk
               {| nav := None; reports_requested := 10 |}).2) ∧
  (a !! 0 = Some (Some m) ∨ a !! 1 = Some (Some m)).
Proof.
  intros Ha Hm.
  destruct (get_messages_some _ _ _ Ha) as [Hcase|Hcase];
    [split; [left; exact Hcase|] | split; [right; exact Hcase|]];
    injection Hcase as ->;
    apply elem_of_cons in Hm as [[= ->]|Hm]; [by left| |by left|];
    apply elem_of_cons in Hm as [[= ->]|Hm]; [by right| |by right|];
    apply elem_of_cons in Hm as [?|Hm]; try done;
    by apply elem_of_nil in Hm.
Qed.

(** X1. The six readings of the clock in one call need not agree.  If
    they all lie between [lo] and [hi], and [time_t] can hold [lo - 10]
    and [hi + 20], every message of the array that is returned was first
    received between [lo - 10] and [hi], was last updated between [lo] and
    [hi] and expires between [lo + 10] and [hi + 20]: its first reception
    is at most [hi - lo] after its last update, and its expiration at
    least [10 - (hi - lo)] after it. *)
Theorem timestamps_stay_near_the_clock (clk : clock) (this_ : traffic_priv)
    (a : message_array) (m : traffic_message) (lo hi : time_t) :
  (∀ i, i < 6 → (lo ≤ time clk i ≤ hi)%Z) →
  TimeT.in_range (lo - 10) →
  TimeT.in_range (hi + 20) →
  (traffic_dummy_get_messages clk this_).2 = Some a →
  Some m ∈ a →
  (lo - 10 ≤ receive_time m ≤ hi)%Z ∧
  (lo ≤ update_time m ≤ hi)%Z ∧
  (lo + 10 ≤ expiration_time m ≤ hi + 20)%Z ∧
  (receive_time m - update_time m ≤ hi - lo)%Z ∧
  (10 - (hi - lo) ≤ expiration_time m - update_time m)%Z.
Proof.
  intros Hclk Hlo Hhi Ha Hm.
  pose proof (Hclk 0 ltac:(lia)) as H0. pose proof (Hclk 1 ltac:(lia)) as H1.
  pose proof (Hclk 2 ltac:(lia)) as H2. pose proof (Hclk 3 ltac:(lia)) as H3.
  pose proof (Hclk 4 ltac:(lia)) as H4. pose proof (Hclk 5 ltac:(lia)) as H5.
  unfold TimeT.in_range in Hlo, Hhi.
  assert (E1 : TimeT.add (time clk 2) 20 = (time clk 2 + 20)%Z)
    by (apply time_add_small; unfold TimeT.in_range; lia).
  assert (E2 : TimeT.add (time clk 5) 20 = (time clk 5 + 20)%Z)
    by (apply time_add_small; unfold TimeT.in_range; lia).
  assert (E3 : TimeT.add (time clk 2) 10 = (time clk 2 + 10)%Z)
    by (apply time_add_small; unfold TimeT.in_range; lia).
  assert (E4 : TimeT.add (time clk 5) 10 = (time clk 5 + 10)%Z)
    by (apply time_add_small; unfold TimeT.in_range; lia).
  assert (E5 : TimeT.sub (time clk 0) 10 = (time clk 0 - 10)%Z)
    by (apply time_sub_small; unfold TimeT.in_range; lia).
  assert (E6 : TimeT.sub (time clk 3) 10 = (time clk 3 - 10)%Z)
    by (apply time_sub_small; unfold TimeT.in_range; lia).
  destruct (batch_elem_of _ _ _ _ Ha Hm) as [[Hc|Hc] [Hp|Hp]];
    injection Hc as ->; injection Hp as <-;
    cbn [receive_time update_time expiration_time
         traffic_message_new_single_event traffic_message_new_cancellation];
    clear - Hlo Hhi H0 H1 H2 H3 H4 H5 E1 E2 E3 E4 E5 E6;
    lia.
Qed.

Lemma timestamps_stay_near_the_clock_witness :
  (100 - 10 ≤ 93 ≤ 105)%Z ∧ (100 ≤ 104 ≤ 105)%Z ∧
  (100 + 10 ≤ 115 ≤ 105 + 20)%Z ∧ (93 - 104 ≤ 105 - 100)%Z ∧
  (10 - (105 - 100) ≤ 115 - 104)%Z.
Proof.
  apply (timestamps_stay_near_the_clock
           (λ i, (100 + Z.of_nat i)%Z)
           {| nav := None; reports_requested := 10 |}
           (default [] (traffic_dummy_get_messages
                          (λ i, (100 + Z.of_nat i)%Z)
                          {| nav := None; reports_requested := 10 |}).2)
           (traffic_message_new_cancellation "dummy:A96-36b-38"
              93%Z 104%Z 115%Z
              (traffic_location_new None spec_graefelfing
                 spec_muenchen_laim "München" None location_dir_one
                 location_fuzziness_low_res location_ramps_none
                 type_highway_land None "A96" "58:1" (-1)))
           100%Z 105%Z).
  - intros i Hi. unfold time. lia.
  - unfold TimeT.in_range, TimeT.min_signed, TimeT.max_signed. lia.
  - unfold TimeT.in_range, TimeT.min_signed, TimeT.max_signed. lia.
  - reflexivity.
  - apply list_elem_of_lookup. exists 1. reflexivity.
Defined.

(** ** The reports over many calls *)

(** X2. From any state of an instance, the call made 2^32 calls after
    another one, with the same clock, returns the same report. *)
Theorem reports_recur_with_period_2_32 (this_ : traffic_priv)
    (clocks : list clock) (k : nat) (clk : clock) :
  clocks !! k = Some clk →
  clocks !! (Z.to_nat Int.modulus + k) = Some clk →
  (poll this_ clocks).2 !! (Z.to_nat Int.modulus + k) =
  (poll this_ clocks).2 !! k.
Proof.
  intros Hk Hlate.
  rewrite (poll_lookup _ _ _ _ Hk), (poll_lookup _ _ _ _ Hlate).
  rewrite (get_messages_report_ext clk
             {| nav := nav this_;
                reports_requested :=
                  Int.wrap (reports_requested this_ +
                            Z.of_nat (Z.to_nat Int.modulus + k)) |}
             {| nav := nav this_;
                reports_requested :=
                  Int.wrap (reports_requested this_ + Z.of_nat k) |});
    [reflexivity|].
  cbn [reports_requested]. rewrite !incr_wrap.
  rewrite <- (wrap_period (reports_requested this_ + Z.of_nat k + 1) 1).
  apply wrap_eq.
  rewrite Nat2Z.inj_add, Z2Nat.id; unfold Int.modulus; lia.
Qed.

Lemma reports_recur_with_period_2_32_witness :
  (poll {| nav := None; reports_requested := 5 |}
     (replicate (Z.to_nat 4294967307) (steady 7%Z))).2
    !! (Z.to_nat Int.modulus + 5) =
  (poll {| nav := None; reports_requested := 5 |}
     (replicate (Z.to_nat 4294967307) (steady 7%Z))).2 !! 5.
Proof.
  apply (reports_recur_with_period_2_32
           {| nav := None; reports_requested := 5 |}
           (replicate (Z.to_nat 4294967307) (steady 7%Z)) 5 (steady 7%Z)).
  - apply lookup_replicate_2. lia.
  - apply lookup_replicate_2. unfold Int.modulus. lia.
Defined.

(** On a new instance, up to call number 2^32, only the calls number 1 and
    11 report something. *)
Lemma poll_absent_before_wrap (clocks : list clock) (k : nat) :
  k < length clocks →
  (Z.of_nat (S k) ≤ Int.modulus)%Z →
  k ≠ 0 → k ≠ 10 →
  (poll traffic_priv_zero clocks).2 !! k = Some None.
Proof.
  intros Hk Hmax H0 H10.
  destruct (lookup_lt_is_Some_2 clocks k Hk) as [clk Hclk].
  rewrite (poll_lookup_fresh _ _ _ Hclk). apply (f_equal Some).
  apply get_messages_default; cbn [reports_requested];
    rewrite incr_wrap_of_nat, wrap_eq_iff by (unfold Int.max_signed; lia);
    (destruct (decide (Z.of_nat (S k) = Int.modulus)) as [->|Hne];
     [by rewrite Z.mod_same
     |rewrite Z.mod_small; unfold Int.modulus in *; lia]).
Qed.

Lemma batches_nones (rs : list report) :
  (∀ i r, rs !! i = Some r → r = None) → batches rs = [].
Proof.
  induction rs as [|r rs IH]; intros Hnone; [done|].
  unfold batches in *. cbn [omap list_omap].
  rewrite (Hnone 0 r eq_refl). cbn [id]. apply IH.
  intros i r' Hi. by apply (Hnone (S i)).
Qed.

Lemma batches_length (rs : list report) :
  length (batches rs) ≤ length rs.
Proof.
  unfold batches. induction rs as [|[a|] rs IH]; cbn; lia.
Qed.

Lemma batches_app (rs rs' : list report) :
  batches (rs ++ rs') = batches rs ++ batches rs'.
Proof. apply omap_app. Qed.

(** The arrays of a sequence of reports in which only the positions 0 and
    10 may hold one. *)
Lemma batches_at_0_and_10 (rs : list report) :
  (∀ k, k < length rs → k ≠ 0 → k ≠ 10 → rs !! k = Some None) →
  batches rs = batches (take 1 rs) ++ batches (take 1 (drop 10 rs)).
Proof.
  intros Hnone.
  rewrite <- (take_drop 1 rs) at 1.
  rewrite <- (take_drop 9 (drop 1 rs)) at 1.
  rewrite drop_drop. change (1 + 9) with 10.
  rewrite <- (take_drop 1 (drop 10 rs)) at 1.
  rewrite drop_drop. change (10 + 1) with 11.
  rewrite !batches_app.
  rewrite (batches_nones (take 9 (drop 1 rs))).
  - rewrite (batches_nones (drop 11 rs)); [by rewrite app_nil_r|].
    intros i r Hi. rewrite lookup_drop in Hi.
    pose proof (lookup_lt_Some _ _ _ Hi) as Hlt.
    rewrite Hnone in Hi by lia. by injection Hi as <-.
  - intros i r Hi. apply lookup_take_Some in Hi as [Hi Hlt].
    rewrite lookup_drop in Hi.
    pose proof (lookup_lt_Some _ _ _ Hi) as Hlen.
    rewrite Hnone in Hi by lia. by injection Hi as <-.
Qed.

Lemma batches_elem_of (rs : list report) (a : message_array) :
  a ∈ batches rs → Some a ∈ rs.
Proof.
  unfold batches. intros ([a'|] & Hin & Heq)%list_elem_of_omap; [|done].
  cbn in Heq. by injection Heq as ->.
Qed.

Lemma messages_length (rs : list report) :
  (∀ a, Some a ∈ rs → length (omap id a) = 2) →
  length (messages rs) = 2 * length (batches rs).
Proof.
  intros Htwo. unfold messages.
  assert (Hall : ∀ a, a ∈ batches rs → length (omap id a) = 2).
  { intros a Ha. by apply Htwo, batches_elem_of. }
  induction (batches rs) as [|a bs IH]; [done|].
  cbn [mbind list_bind]. rewrite length_app, (Hall a) by left.
  rewrite IH; [cbn [length]; lia|].
  intros a' Ha'. apply Hall. by right.
Qed.

(** X3. In its first 2^32 calls a new instance returns at most two
    arrays; once 11 calls were made it has returned exactly two.  Each
    array that any sequence of calls returns holds two messages, so at
    most four messages are returned in those calls. *)
Theorem at_most_two_batches_before_wrap (clocks : list clock) :
  (Z.of_nat (length clocks) ≤ Int.modulus)%Z →
  length (batches (poll traffic_priv_zero clocks).2) ≤ 2 ∧
  length (messages (poll traffic_priv_zero clocks).2) =
    2 * length (batches (poll traffic_priv_zero clocks).2) ∧
  length (messages (poll traffic_priv_zero clocks).2) ≤ 4 ∧
  (11 ≤ length clocks →
   length (batches (poll traffic_priv_zero clocks).2) = 2).
Proof.
  intros Hmax.
  assert (Hsplit : batches (poll traffic_priv_zero clocks).2 =
    batches (take 1 (poll traffic_priv_zero clocks).2) ++
    batches (take 1 (drop 10 (poll traffic_priv_zero clocks).2))).
  { apply batches_at_0_and_10. intros k Hk H0 H10.
    rewrite poll_length in Hk. apply poll_absent_before_wrap; lia. }
  assert (Hle : length (batches (poll traffic_priv_zero clocks).2) ≤ 2).
  { rewrite Hsplit, length_app.
    pose proof (batches_length
                  (take 1 (poll traffic_priv_zero clocks).2)) as H1.
    pose proof (batches_length
                  (take 1 (drop 10 (poll traffic_priv_zero clocks).2)))
      as H2.
    rewrite length_take in H1, H2. lia. }
  assert (Hmsg : length (messages (poll traffic_priv_zero clocks).2) =
                 2 * length (batches (poll traffic_priv_zero clocks).2)).
  { apply messages_length. intros a (clk & that & Ha)%poll_elem_of.
    symmetry in Ha.
    by destruct (get_messages_some _ _ _ Ha) as [[= ->]|[= ->]]. }
  split; [exact Hle|]. split; [exact Hmsg|]. split; [lia|].
  intros Hlen. rewrite Hsplit, length_app.
  destruct (lookup_lt_is_Some_2 clocks 0) as [clk1 Hclk1]; [lia|].
  destruct (lookup_lt_is_Some_2 clocks 10) as [clk11 Hclk11]; [lia|].
  pose proof (poll_lookup_fresh _ _ _ Hclk1) as Hr1.
  pose proof (poll_lookup_fresh _ _ _ Hclk11) as Hr11.
  rewrite (take_S_r _ 0 _ Hr1).
  rewrite (take_S_r (drop 10 _) 0
             (traffic_dummy_get_messages clk11
                {| nav := None;
                   reports_requested := Int.wrap (Z.of_nat 10) |}).2).
  - reflexivity.
  - by rewrite lookup_drop.
Qed.

Lemma at_most_two_batches_before_wrap_witness :
  length (batches (poll traffic_priv_zero
                     (replicate 12 (steady 7%Z))).2) ≤ 2 ∧
  length (messages (poll traffic_priv_zero
                      (replicate 12 (steady 7%Z))).2) =
    2 * length (batches (poll traffic_priv_zero
                           (replicate 12 (steady 7%Z))).2) ∧
  length (messages (poll traffic_priv_zero
                      (replicate 12 (steady 7%Z))).2) ≤ 4 ∧
  length (batches (poll traffic_priv_zero
                     (replicate 12 (steady 7%Z))).2) = 2.
Proof.
  destruct (at_most_two_batches_before_wrap (replicate 12 (steady 7%Z)))
    as (Hle & Hmsg & Hfour & Htwo).
  - vm_compute. discriminate.
  - split; [exact Hle|]. split; [exact Hmsg|]. split; [exact Hfour|].
    apply Htwo. vm_compute. lia.
Defined.

(** ** Instances in a process, continued *)

(** A schedule that runs to its end only calls instances that are
    allocated. *)
Lemma run_allocated (meth : traffic_methods)
    (sched : list (positive * clock)) (σ σ' : process)
    (trace : list (positive * report)) :
  run meth sched σ = Some (trace, σ') →
  Forall (λ c, c.1 ∈ dom (instances σ)) sched.
Proof.
  revert σ σ' trace.
  induction sched as [|[h clk] sched IH]; intros σ σ' trace.
  { intros _. constructor. }
  cbn [run]. unfold call_get_messages.
  destruct (instances σ !! h) as [p|] eqn:Hp; [|done].
  cbn [mbind option_bind]. destruct (get_messages meth clk p) as [p' r].
  cbn [mbind option_bind].
  set (σ1 := {| instances := <[h:=p']> (instances σ);
                dbg_calls := dbg_calls σ |}).
  destruct (run meth sched σ1) as [[rs σ2]|] eqn:Hrun; [|done].
  intros _. apply IH in Hrun.
  assert (Hdom : dom (instances σ1) = dom (instances σ)).
  { cbn [σ1 instances]. by apply dom_insert_lookup_L. }
  rewrite Hdom in Hrun. constructor; [|done].
  cbn [fst]. by apply elem_of_dom.
Qed.

(** X4. The member [nav] of an instance is never set: the constructor
    leaves it [NULL], whatever navit instance it is given, and it is still
    [NULL] after any schedule of calls that follows in the process, while
    the instance is still there. *)
Theorem nav_is_never_set (navit_ : navit) (meth meth' : traffic_methods)
    (attrs : list attr) (cbl : callback_list) (σ σ1 σ2 : process)
    (this_ : positive) (sched : list (positive * clock))
    (trace : list (positive * report)) :
  traffic_dummy_new navit_ meth attrs cbl σ = (this_, meth', σ1) →
  run meth' sched σ1 = Some (trace, σ2) →
  ∃ p, instances σ1 !! this_ = Some traffic_priv_zero ∧
       instances σ2 !! this_ = Some p ∧
       nav p = None.
Proof.
  intros (-> & Hfresh & Hσ1)%traffic_dummy_new_inv Hrun.
  assert (Hnew : instances σ1 !! this_ = Some traffic_priv_zero).
  { by rewrite Hσ1, lookup_insert_eq. }
  destruct (run_local sched σ1 this_ _ Hnew (run_allocated _ _ _ _ _ Hrun))
    as (trace' & σ2' & Hrun' & _ & Hst & _).
  rewrite Hrun in Hrun'. injection Hrun' as <- <-.
  eexists. split; [exact Hnew|]. split; [exact Hst|].
  by rewrite poll_nav.
Qed.

Lemma nav_is_never_set_witness :
  ∃ p,
    (<[1%positive := traffic_priv_zero]> (∅ : gmap positive traffic_priv))
      !! 1%positive = Some traffic_priv_zero ∧
    (<[1%positive := {| nav := None; reports_requested := 2 |}]>
       (<[1%positive := {| nav := None; reports_requested := 1 |}]>
          (<[1%positive := traffic_priv_zero]>
             (∅ : gmap positive traffic_priv)))) !! 1%positive = Some p ∧
    nav p = None.
Proof.
  destruct (nav_is_never_set 9%positive traffic_dummy_meth traffic_dummy_meth
           [] 1%positive
           {| instances := ∅; dbg_calls := [] |}
           {| instances := <[1%positive := traffic_priv_zero]> ∅;
              dbg_calls := [(lvl_error, enter_text)] |}
           {| instances :=
                <[1%positive := {| nav := None; reports_requested := 2 |}]>
                  (<[1%positive :=
                       {| nav := None; reports_requested := 1 |}]>
                     (<[1%positive := traffic_priv_zero]> ∅));
              dbg_calls := [(lvl_error, enter_text)] |}
           1%positive
           [(1%positive, steady 5%Z); (1%positive, steady 6%Z)]
           [(1%positive,
             (traffic_dummy_get_messages (steady 5%Z) traffic_priv_zero).2);
            (1%positive, None)]) as (p & Hnew & Hp & Hnav).
  - reflexivity.
  - reflexivity.
  - exists p. cbn [instances] in Hnew, Hp.
    split; [exact Hnew|]. split; [exact Hp | exact Hnav].
Defined.

(** X5. In a schedule that runs to its end, the counter of an instance
    counts the calls made on that instance and no others: afterwards it is
    the counter before plus the number of its own calls, reduced to the
    range of [int]; the instance got one report for each of those calls,
    and its [nav] is as before. *)
Theorem counter_counts_own_requests (sched : list (positive * clock))
    (σ σ' : process) (h : positive) (p : traffic_priv)
    (trace : list (positive * report)) :
  instances σ !! h = Some p →
  Int.in_range (reports_requested p) →
  run traffic_dummy_meth sched σ = Some (trace, σ') →
  ∃ p',
    instances σ' !! h = Some p' ∧
    reports_requested p' =
      Int.wrap (reports_requested p +
                Z.of_nat (length (clocks_of h sched))) ∧
    nav p' = nav p ∧
    length (reports_of h trace) = length (clocks_of h sched) ∧
    dom (instances σ') = dom (instances σ).
Proof.
  intros Hp Hrange Hrun.
  destruct (run_local sched σ h _ Hp (run_allocated _ _ _ _ _ Hrun))
    as (trace' & σ2 & Hrun' & Hrep & Hst & Hdom).
  rewrite Hrun in Hrun'. injection Hrun' as <- <-.
  eexists. split; [exact Hst|].
  rewrite poll_counter_in_range, poll_nav, Hrep, poll_length by done.
  done.
Qed.

Lemma counter_counts_own_requests_witness :
  ∃ p',
    (<[1%positive := {| nav := None; reports_requested := 2 |}]>
       (<[2%positive := {| nav := None; reports_requested := 1 |}]>
          (<[1%positive := {| nav := None; reports_requested := 1 |}]>
             (<[2%positive := traffic_priv_zero]>
                (<[1%positive := traffic_priv_zero]>
                   (∅ : gmap positive traffic_priv))))))
      !! 1%positive = Some p' ∧
    reports_requested p' = Int.wrap (0 + Z.of_nat 2) ∧
    nav p' = None.
Proof.
  destruct (counter_counts_own_requests
              [(1%positive, steady 5%Z); (2%positive, steady 6%Z);
               (1%positive, steady 7%Z)]
              {| instances :=
                   <[2%positive := traffic_priv_zero]>
                     (<[1%positive := traffic_priv_zero]> ∅);
                 dbg_calls := [] |}
              {| instances :=
                   <[1%positive :=
                       {| nav := None; reports_requested := 2 |}]>
                     (<[2%positive :=
                          {| nav := None; reports_requested := 1 |}]>
                        (<[1%positive :=
                             {| nav := None; reports_requested := 1 |}]>
                           (<[2%positive := traffic_priv_zero]>
                              (<[1%positive := traffic_priv_zero]> ∅))));
                 dbg_calls := [] |}
              1%positive traffic_priv_zero
              [(1%positive,
                (traffic_dummy_get_messages (steady 5%Z)
                   traffic_priv_zero).2);
               (2%positive,
                (traffic_dummy_get_messages (steady 6%Z)
                   traffic_priv_zero).2);
               (1%positive, None)])
    as (p' & Hp' & Hcount & Hnav & _).
  - reflexivity.
  - unfold Int.in_range, Int.min_signed, Int.max_signed. cbn. lia.
  - reflexivity.
  - exists p'. split; [exact Hp'|]. split; [exact Hcount | exact Hnav].
Defined.

(** ** What the messages of different calls have in common *)

(** X6. A new instance never cancels what it has not reported: when a call
    returns a cancellation, the tenth call before it on that instance
    returned an event with the same identifier and the same location. *)
Theorem cancellation_follows_its_event (clocks : list clock) (k : nat)
    (a : message_array) (m : traffic_message) :
  (poll traffic_priv_zero clocks).2 !! k = Some (Some a) →
  Some m ∈ a →
  msg_payload m = cancellation →
  10 ≤ k ∧
  ∃ a' m' flag class type,
    (poll traffic_priv_zero clocks).2 !! (k - 10) = Some (Some a') ∧
    Some m' ∈ a' ∧
    msg_payload m' = single_event flag class type ∧
    msg_id m' = msg_id m ∧
    msg_location m' = msg_location m.
Proof.
  intros Hk Hm Hcancel.
  destruct (lookup_lt_is_Some_2 clocks k) as [clk Hclk].
  { rewrite <- (poll_length traffic_priv_zero). by eapply lookup_lt_Some. }
  rewrite (poll_lookup_fresh _ _ _ Hclk) in Hk. injection Hk as Hk.
  destruct (get_messages_present _ _ _ Hk) as [Hn|Hn].
  { rewrite (get_messages_case_1 _ _ Hn) in Hk. injection Hk as <-.
    exfalso.
    apply elem_of_cons in Hm as [[= ->]|Hm]; [done|].
    apply elem_of_cons in Hm as [[= ->]|Hm]; [done|].
    apply elem_of_cons in Hm as [?|Hm]; [done|].
    by apply elem_of_nil in Hm. }
  rewrite (get_messages_case_11 _ _ Hn) in Hk. injection Hk as <-.
  cbn [reports_requested] in Hn.
  rewrite incr_wrap_of_nat, wrap_eq_iff in Hn by (unfold Int.max_signed; lia).
  assert (Hge : 10 ≤ k).
  { pose proof (Z.mod_le (Z.of_nat (S k)) Int.modulus) as Hle.
    unfold Int.modulus in *. lia. }
  split; [exact Hge|].
  destruct (lookup_lt_is_Some_2 clocks (k - 10)) as [clk' Hclk'].
  { apply lookup_lt_Some in Hclk. lia. }
  rewrite (poll_lookup_fresh _ _ _ Hclk').
  rewrite (get_messages_case_1 clk'
             {| nav := None;
                reports_requested := Int.wrap (Z.of_nat (k - 10)) |}).
  - apply elem_of_cons in Hm as [[= ->]|Hm]; [done|].
    apply elem_of_cons in Hm as [[= ->]|Hm].
    + eexists _, _, _, _, _. split; [reflexivity|].
      split; [apply list_elem_of_lookup; by exists 1|]. done.
    + apply elem_of_cons in Hm as [?|Hm]; [done|].
      by apply elem_of_nil in Hm.
  - cbn [reports_requested].
    rewrite incr_wrap_of_nat, wrap_eq_iff by (unfold Int.max_signed; lia).
    replace (Z.of_nat (S (k - 10))) with (Z.of_nat (S k) - 10)%Z by lia.
    unfold Int.modulus in *. Z.div_mod_to_equations. lia.
Qed.

Lemma cancellation_follows_its_event_witness :
  10 ≤ 10 ∧
  ∃ a' m' flag class type,
    (poll traffic_priv_zero (replicate 11 (steady 7%Z))).2 !! (10 - 10) =
      Some (Some a') ∧
    Some m' ∈ a' ∧
    msg_payload m' = single_event flag class type ∧
    msg_id m' = "dummy:A96-36b-38" ∧
    loc_road_ref (msg_location m') = "A96".
Proof.
  destruct (cancellation_follows_its_event
              (replicate 11 (steady 7%Z)) 10
              (default [] (traffic_dummy_get_messages (steady 7%Z)
                             {| nav := None; reports_requested := 10 |}).2)
              (traffic_message_new_cancellation "dummy:A96-36b-38"
                 (-3)%Z 7%Z 17%Z
                 (traffic_location_new None spec_graefelfing
                    spec_muenchen_laim "München" None location_dir_one
                    location_fuzziness_low_res location_ramps_none
                    type_highway_land None "A96" "58:1" (-1))))
    as (Hge & a' & m' & flag & class & type & Hk & Hm' & Hev & Hid & Hloc).
  - reflexivity.
  - apply list_elem_of_lookup. exists 1. reflexivity.
  - reflexivity.
  - split; [exact Hge|]. exists a', m', flag, class, type.
    split; [exact Hk|]. split; [exact Hm'|]. split; [exact Hev|].
    split; [exact Hid|]. by rewrite Hloc.
Defined.

(** X7. The identifier of a message stands for its location: two messages
    returned by any two calls, on whatever instances and clocks, have the
    same identifier exactly when they have the same location.  Within one
    returned array the identifiers of the messages differ. *)
Theorem identifier_determines_location (clk clk' : clock)
    (this_ that : traffic_priv) (a a' : message_array)
    (m m' : traffic_message) :
  (traffic_dummy_get_messages clk this_).2 = Some a →
  (traffic_dummy_get_messages clk' that).2 = Some a' →
  Some m ∈ a →
  Some m' ∈ a' →
  (msg_id m = msg_id m' ↔ msg_location m = msg_location m') ∧
  NoDup (msg_id <$> omap id a).
Proof.
  intros Ha Ha' Hm Hm'.
  destruct (batch_elem_of _ _ _ _ Ha Hm) as [[[= ->]|[= ->]] Hpos];
    destruct (batch_elem_of _ _ _ _ Ha' Hm') as [[[= ->]|[= ->]] Hpos'];
    destruct Hpos as [[= <-]|[= <-]];
    destruct Hpos' as [[= <-]|[= <-]];
    (split;
     [split; intros Heq; first [reflexivity | discriminate Heq]
     |cbn; apply NoDup_cons; split;
      [intros Hin%list_elem_of_singleton; discriminate Hin
      |apply NoDup_singleton]]).
Qed.

Lemma identifier_determines_location_witness :
  ("dummy:A9-68-67" = "dummy:A9-68-67" ↔
   traffic_location_new None spec_neufahrn spec_allershausen "Nürnberg"
     None location_dir_one location_fuzziness_low_res location_ramps_none
     type_highway_land None "A9" "58:1" (-1) =
   traffic_location_new None spec_neufahrn spec_allershausen "Nürnberg"
     None location_dir_one location_fuzziness_low_res location_ramps_none
     type_highway_land None "A9" "58:1" (-1)) ∧
  NoDup ["dummy:A9-68-67"; "dummy:A96-36b-38"].
Proof.
  apply (identifier_determines_location (steady 5%Z) (steady 9%Z)
           traffic_priv_zero {| nav := None; reports_requested := 10 |}
           (default [] (traffic_dummy_get_messages (steady 5%Z)
                          traffic_priv_zero).2)
           (default [] (traffic_dummy_get_messages (steady 9%Z)
                          {| nav := None; reports_requested := 10 |}).2)
           (traffic_message_new_single_event "dummy:A9-68-67"
              5%Z 5%Z 25%Z 0
              (traffic_location_new None spec_neufahrn spec_allershausen
                 "Nürnberg" None location_dir_one
                 location_fuzziness_low_res location_ramps_none
                 type_highway_land None "A9" "58:1" (-1))
              event_class_congestion event_congestion_queue)
           (traffic_message_new_single_event "dummy:A9-68-67"
              (-1)%Z 9%Z 19%Z 0
              (traffic_location_new None spec_neufahrn spec_allershausen
                 "Nürnberg" None location_dir_one
                 location_fuzziness_low_res location_ramps_none
                 type_highway_land None "A9" "58:1" (-1))
              event_class_congestion event_congestion_queue)).
  - reflexivity.
  - reflexivity.
  - apply list_elem_of_lookup. exists 0. reflexivity.
  - apply list_elem_of_lookup. exists 0. reflexivity.
Defined.

(** X8. Every message ever returned is located on a stretch of rural
    motorway given in one direction and at low resolution, without ramps,
    without an "at" point, a direction name or a road name, in the table
    "58:1" with direction -1; its destination is "Nürnberg" on the A9 and
    "München" on the A96. *)
Theorem every_location_has_the_fixed_classifiers (clk : clock)
    (this_ : traffic_priv) (a : message_array) (m : traffic_message) :
  (traffic_dummy_get_messages clk this_).2 = Some a →
  Some m ∈ a →
  loc_at (msg_location m) = None ∧
  loc_direction (msg_location m) = None ∧
  loc_directionality (msg_location m) = location_dir_one ∧
  loc_fuzziness (msg_location m) = location_fuzziness_low_res ∧
  loc_ramps (msg_location m) = location_ramps_none ∧
  loc_road_type (msg_location m) = type_highway_land ∧
  loc_road_name (msg_location m) = None ∧
  loc_tmc_table (msg_location m) = "58:1" ∧
  loc_tmc_direction (msg_location m) = (-1)%Z ∧
  (loc_road_ref (msg_location m) = "A9" ∧
   loc_destination (msg_location m) = "Nürnberg" ∨
   loc_road_ref (msg_location m) = "A96" ∧
   loc_destination (msg_location m) = "München").
Proof.
  intros Ha Hm.
  destruct (batch_elem_of _ _ _ _ Ha Hm) as [[[= ->]|[= ->]] Hpos];
    destruct Hpos as [[= <-]|[= <-]];
    repeat (split; [reflexivity|]); by (left + right).
Qed.

Lemma every_location_has_the_fixed_classifiers_witness :
  loc_tmc_table
    (traffic_location_new None spec_graefelfing spec_muenchen_laim
       "München" None location_dir_one location_fuzziness_low_res
       location_ramps_none type_highway_land None "A96" "58:1" (-1)) =
    "58:1".
Proof.
  apply (every_location_has_the_fixed_classifiers (steady 7%Z)
           {| nav := None; reports_requested := 10 |}
           (default [] (traffic_dummy_get_messages (steady 7%Z)
                          {| nav := None; reports_requested := 10 |}).2)
           (traffic_message_new_cancellation "dummy:A96-36b-38"
              (-3)%Z 7%Z 17%Z
              (traffic_location_new None spec_graefelfing
                 spec_muenchen_laim "München" None location_dir_one
                 location_fuzziness_low_res location_ramps_none
                 type_highway_land None "A96" "58:1" (-1)))).
  - reflexivity.
  - apply list_elem_of_lookup. exists 1. reflexivity.
Defined.

(** ** From registration to the first report *)

(** X9. What [plugin_init] registers works as a traffic plugin: the
    function found in the registry under the traffic category and the name
    "dummy", called as a constructor in the process, gives a handle that
    was not in use and a methods table whose call returns an array of
    three entries at once.  The process then has one instance more, and
    two debug lines more, than before the registration. *)
Theorem registered_constructor_serves_reports (σ : process)
    (reg : registry) (navit_ : navit) (meth : traffic_methods)
    (attrs : list attr) (cbl : callback_list) (clk : clock) :
  ∃ new this_ meth' σ1 σ2 a,
    (plugin_init (σ, reg)).2 !! (plugin_category_traffic, "dummy") =
      Some (new_traffic new) ∧
    new navit_ meth attrs cbl (plugin_init (σ, reg)).1 =
      (this_, meth', σ1) ∧
    call_get_messages meth' clk this_ σ1 = Some (Some a, σ2) ∧
    length a = 3 ∧
    (this_ ∉ dom (instances σ)) ∧
    dom (instances σ2) = {[this_]} ∪ dom (instances σ) ∧
    dbg_calls σ2 =
      dbg_calls σ ++ [(lvl_error, enter_text); (lvl_error, enter_text)].
Proof.
  eexists _, _, _, _, _, _.
  split; [apply lookup_insert_eq|].
  split; [reflexivity|].
  unfold call_get_messages. cbn [instances dbg plugin_init fst].
  rewrite lookup_insert_eq. cbn [mbind option_bind].
  split; [reflexivity|]. split; [reflexivity|].
  cbn [instances dbg_calls]. split; [apply is_fresh|].
  split.
  - by rewrite !dom_insert_L, union_assoc_L, union_idemp_L.
  - cbn [dbg dbg_calls]. by rewrite <- app_assoc.
Qed.
